(** * Analytics and reporting engine of the task manager

    A shallow embedding of [src/controllers/dashboardController.js]:
    the dashboard aggregations ([getDashboardData]), the time-tracking
    report and its CSV rendering ([generateReport], [convertToCSV]) and the
    bulk mutation handler ([bulkUpdateTasks]); and, around it, of the
    virtuals, save hook and statics of [src/models/Task.js], of the error
    middleware ([globalErrorHandler]) and of three handlers of the project
    controller ([deleteProject], [getProjectTasks], [getProjectStats]).

    Modelling conventions.
    - A JavaScript or BSON number is an exact rational extended with NaN and
      the two infinities ([Js.num]); the rounding of IEEE doubles is not
      modelled.  Dates are integers (milliseconds since the epoch).
    - Documents are records holding the fields the controller reads; an
      optional field is an [option].  Identifiers (ObjectIds) are strings.
    - A MongoDB aggregation stage is a function on lists of documents.
      [$group] emits its groups in order of first occurrence and [$sort] is
      a stable insertion sort: MongoDB leaves both orders open, and every
      statement below that depends on the order says so.
    - A thrown exception or a failing aggregation is a [Throw] in the
      [result] monad; reading the clock ([new Date()]) is a step of the
      [Clock.M] state monad. *)

From Stdlib Require Import ZArith QArith Qround List String Ascii Bool Lia.
From Stdlib Require Import Permutation Sorted DecimalString.
Import ListNotations.

Set Implicit Arguments.

(** ** Exceptions *)

Inductive error :=
| TypeError          (* property read on undefined *)
| DivideByZero.      (* MongoDB: can't $divide by zero *)

Inductive result (A : Type) :=
| Ok (a : A)
| Throw (e : error).

Arguments Ok {A} a.
Arguments Throw {A} e.

Definition bind {A B} (r : result A) (k : A -> result B) : result B :=
  match r with
  | Ok a => k a
  | Throw e => Throw e
  end.

Notation "x <- r ;; k" := (bind r (fun x => k))
  (at level 61, r at next level, right associativity).

Fixpoint mapM {A B} (f : A -> result B) (l : list A) : result (list B) :=
  match l with
  | [] => Ok []
  | x :: r => y <- f x ;; ys <- mapM f r ;; Ok (y :: ys)
  end.

(** ** JavaScript numbers and values *)

Module Js.

Inductive num :=
| Fin (q : Q)
| PosInf
| NegInf
| NaN.

Definition signed (positive : bool) : num :=
  if positive then PosInf else NegInf.

(** [a / b]; a zero divisor is the positive zero. *)
Definition div (a b : num) : num :=
  match a, b with
  | NaN, _ | _, NaN => NaN
  | Fin x, Fin y =>
      if Qeq_bool y 0
      then (if Qeq_bool x 0 then NaN else signed (Qle_bool 0 x))
      else Fin (x / y)
  | Fin _, _ => Fin 0
  | PosInf, Fin y => signed (Qle_bool 0 y)
  | NegInf, Fin y => signed (negb (Qle_bool 0 y))
  | _, _ => NaN
  end.

(** [a * b] *)
Definition mul (a b : num) : num :=
  match a, b with
  | NaN, _ | _, NaN => NaN
  | Fin x, Fin y => Fin (x * y)
  | Fin x, PosInf | PosInf, Fin x =>
      if Qeq_bool x 0 then NaN else signed (Qle_bool 0 x)
  | Fin x, NegInf | NegInf, Fin x =>
      if Qeq_bool x 0 then NaN else signed (negb (Qle_bool 0 x))
  | PosInf, PosInf | NegInf, NegInf => PosInf
  | _, _ => NegInf
  end.

(** ToBoolean on a number: zero and NaN are falsy. *)
Definition truthy (a : num) : bool :=
  match a with
  | Fin q => negb (Qeq_bool q 0)
  | NaN => false
  | _ => true
  end.

Definition digits (n : Z) : string := NilZero.string_of_int (Z.to_int n).

(** The integer [n] for which [n / 10] is closest to [q], the larger one on
    a tie (step 10.a of Number.prototype.toFixed, fractionDigits = 1). *)
Definition tenths (q : Q) : Z := Qfloor (q * 10 + (1 # 2)).

Definition fixed1 (q : Q) : string :=
  let n := tenths q in
  (digits (n / 10) ++ "." ++ digits (n mod 10))%string.

(** [x.toFixed(1)].  From 10^21 on the builtin switches to exponent
    notation; the dashboard applies it to percentages and daily averages,
    and the model keeps the fixed notation throughout. *)
Definition toFixed1 (x : num) : string :=
  match x with
  | NaN => "NaN"
  | PosInf => "Infinity"
  | NegInf => "-Infinity"
  | Fin q => if Qle_bool 0 q then fixed1 q else ("-" ++ fixed1 (- q))%string
  end.

(** The values that reach a response body. *)
Inductive value :=
| Undefined
| Number (x : num)
| Str (s : string).

(** [a || b] *)
Definition or (a b : value) : value :=
  match a with
  | Undefined => b
  | Number x => if truthy x then a else b
  | Str s => if String.eqb s "" then b else a
  end.

Definition ofZ (n : Z) : num := Fin (inject_Z n).

End Js.

(** ** Documents *)

Record Task := {
  _id : string;
  title : string;
  status : string;
  priority : string;
  project : option string;
  dueDate : option Z;
  completedDate : option Z;
  estimatedHours : option Q;
  actualHours : option Q;
  createdAt : Z;
  updatedAt : Z
}.

Module Project.
Record t := {
  _id : string;
  name : string;
  status : string;
  priority : string;
  dueDate : option Z
}.
End Project.

(** ** Aggregation operators *)

Module Mongo.

(** A number or null; an absent field reads as null in an expression. *)
Definition number := option Q.

Definition ofZ (n : Z) : number := Some (inject_Z n).

Definition sumZ (l : list Z) : Z := fold_right Z.add 0%Z l.

(** [{ $sum: 1 }] *)
Definition count {A} (g : list A) : Z := sumZ (map (fun _ => 1%Z) g).

(** [$size] *)
Definition size {A} (l : list A) : Z := Z.of_nat (List.length l).

(** The numbers among the values an accumulator receives. *)
Fixpoint numbers (l : list number) : list Q :=
  match l with
  | [] => []
  | Some q :: r => q :: numbers r
  | None :: r => numbers r
  end.

(** [$sum] skips what is not a number. *)
Definition sum (l : list number) : Q := fold_right Qplus 0 (numbers l).

(** [$avg] skips what is not a number, and is null when nothing is left. *)
Definition avg (l : list number) : number :=
  match numbers l with
  | [] => None
  | qs => Some (fold_right Qplus 0 qs / inject_Z (size qs))
  end.

(** Truth of an operand of [$and] or [$cond]: null and zero are false. *)
Definition truthy (o : number) : bool :=
  match o with Some q => negb (Qeq_bool q 0) | None => false end.

Definition subtract (a b : number) : number :=
  match a, b with Some x, Some y => Some (x - y) | _, _ => None end.

Definition multiply (a b : number) : number :=
  match a, b with Some x, Some y => Some (x * y) | _, _ => None end.

(** [$divide] on two numbers fails on a zero divisor, and is null as soon as
    one operand is null. *)
Definition divide (a b : number) : result number :=
  match a, b with
  | Some x, Some y =>
      if Qeq_bool y 0 then Throw DivideByZero else Ok (Some (x / y))
  | _, _ => Ok None
  end.

Section Group.
Variables (A K : Type).
Variable eqb : K -> K -> bool.
Variable key : A -> K.

(** One document enters the group table: it joins the group of its key, or
    opens a new group at the end. *)
Fixpoint insert_group (k : K) (x : A) (gs : list (K * list A))
  : list (K * list A) :=
  match gs with
  | [] => [(k, [x])]
  | (k', xs) :: r =>
      if eqb k k' then (k', xs ++ [x]) :: r
      else (k', xs) :: insert_group k x r
  end.

(** [$group] with [_id: key]: the groups, each with its documents in input
    order. *)
Definition group_by (l : list A) : list (K * list A) :=
  fold_left (fun gs x => insert_group (key x) x gs) l [].

(** The documents of [l] whose key is [k]. *)
Definition members (k : K) (l : list A) : list A :=
  filter (fun x => eqb (key x) k) l.

(** What the table holds after the documents [seen]. *)
Definition grouped (seen : list A) (gs : list (K * list A)) : Prop :=
  NoDup (map fst gs)
  /\ (forall k xs, In (k, xs) gs -> xs = members k seen /\ xs <> [])
  /\ (forall x, In x seen -> In (key x) (map fst gs))
  /\ Permutation (List.concat (map snd gs)) seen.
End Group.

Section Sort.
Variable A : Type.
Variable leb : A -> A -> bool.

Fixpoint insert (x : A) (l : list A) : list A :=
  match l with
  | [] => [x]
  | y :: r => if leb x y then x :: l else y :: insert x r
  end.

(** [$sort]: documents that compare equal keep their input order. *)
Definition sort (l : list A) : list A := fold_right insert [] l.
End Sort.

(** Ascending order on an optional date: an absent date sorts first. *)
Definition date_leb (a b : option Z) : bool :=
  match a, b with
  | None, _ => true
  | Some _, None => false
  | Some x, Some y => (x <=? y)%Z
  end.

End Mongo.

Definition pair_eqb (a b : string * string) : bool :=
  String.eqb (fst a) (fst b) && String.eqb (snd a) (snd b).

(** ** The clock *)

Module Clock.

(** The clock answers its n-th reading with [reading n]. *)
Record t := { reading : nat -> Z; reads : nat }.

Definition M (A : Type) := t -> A * t.

Definition ret {A} (a : A) : M A := fun c => (a, c).

Definition bind {A B} (m : M A) (k : A -> M B) : M B :=
  fun c => let (a, c') := m c in k a c'.

(** [new Date()] *)
Definition newDate : M Z :=
  fun c => (reading c (reads c), {| reading := reading c; reads := S (reads c) |}).

End Clock.

Notation "x <~ m ;; k" := (Clock.bind m (fun x => k))
  (at level 61, m at next level, right associativity).

(** ** getDashboardData *)

(** *** 1. Task statistics: [$group] by status *)

Module TaskStat.
Record t := {
  _id : string;
  count : Z;
  totalEstimated : Q;
  totalActual : Q;
  avgVariance : Mongo.number
}.
End TaskStat.

(** The [$cond] under [avgVariance]. *)
Definition variance (t : Task) : Mongo.number :=
  if Mongo.truthy (estimatedHours t) && Mongo.truthy (actualHours t)
  then Mongo.subtract (actualHours t) (estimatedHours t)
  else Some 0.

Definition taskStats (tasks : list Task) : list TaskStat.t :=
  map (fun g =>
         {| TaskStat._id := fst g;
            TaskStat.count := Mongo.count (snd g);
            TaskStat.totalEstimated := Mongo.sum (map estimatedHours (snd g));
            TaskStat.totalActual := Mongo.sum (map actualHours (snd g));
            TaskStat.avgVariance := Mongo.avg (map variance (snd g)) |})
      (Mongo.group_by String.eqb status tasks).

(** *** 3. Priority distribution: [$group] by (priority, status), then by
    priority *)

Module Cell.
Record t := { priority : string; status : string; count : Z }.
End Cell.

Module Breakdown.
Record t := { status : string; count : Z }.
End Breakdown.

Module PriorityRow.
Record t := {
  _id : string;
  statusBreakdown : list Breakdown.t;
  total : Z
}.
End PriorityRow.

Definition priorityCells (tasks : list Task) : list Cell.t :=
  map (fun g =>
         {| Cell.priority := fst (fst g);
            Cell.status := snd (fst g);
            Cell.count := Mongo.count (snd g) |})
      (Mongo.group_by pair_eqb (fun t => (priority t, status t)) tasks).

Definition priorityRows (cells : list Cell.t) : list PriorityRow.t :=
  map (fun g =>
         {| PriorityRow._id := fst g;
            PriorityRow.statusBreakdown :=
              map (fun c => {| Breakdown.status := Cell.status c;
                               Breakdown.count := Cell.count c |}) (snd g);
            PriorityRow.total := Mongo.sumZ (map Cell.count (snd g)) |})
      (Mongo.group_by String.eqb Cell.priority cells).

Definition priorityDistribution (tasks : list Task) : list PriorityRow.t :=
  priorityRows (priorityCells tasks).

(** *** 4. Overdue analysis *)

Module Overdue.
Record t := { _id : string; count : Z; avgOverdueDays : Mongo.number }.
End Overdue.

Definition msPerDay : Z := 1000 * 60 * 60 * 24.

(** The [$match] stage, built with the date [now]. *)
Definition overdueMatch (now : Z) (t : Task) : bool :=
  match dueDate t with
  | Some d => (d <? now)%Z
  | None => false
  end
  && negb (existsb (String.eqb (status t)) ["completed"; "cancelled"]%string).

(** The expression under [avgOverdueDays], built with the date [now]. *)
Definition overdueDays (now : Z) (t : Task) : result Mongo.number :=
  Mongo.divide
    (Mongo.subtract (Mongo.ofZ now) (option_map inject_Z (dueDate t)))
    (Mongo.ofZ msPerDay).

Definition overdueGroup (now : Z) (g : string * list Task) : result Overdue.t :=
  days <- mapM (overdueDays now) (snd g) ;;
  Ok {| Overdue._id := fst g;
        Overdue.count := Mongo.count (snd g);
        Overdue.avgOverdueDays := Mongo.avg days |}.

(** The pipeline run on the collection; [nowMatch] and [nowGroup] are the
    two dates that sit in its stages. *)
Definition overduePipeline (nowMatch nowGroup : Z) (tasks : list Task)
  : result (list Overdue.t) :=
  mapM (overdueGroup nowGroup)
       (Mongo.group_by String.eqb priority (filter (overdueMatch nowMatch) tasks)).

(** The pipeline literal is evaluated stage by stage, so the [new Date()] of
    [$match] is read before the one of [$group]. *)
Definition overdueAnalysis (tasks : list Task)
  : Clock.M (result (list Overdue.t)) :=
  nowMatch <~ Clock.newDate ;;
  nowGroup <~ Clock.newDate ;;
  Clock.ret (overduePipeline nowMatch nowGroup tasks).

(** The overdue age of a task in days at the date [now]. *)
Definition overdueAge (now : Z) (t : Task) : Mongo.number :=
  option_map (fun due => (inject_Z now - inject_Z due) / inject_Z msPerDay)
             (dueDate t).

(** *** 5. Project progress *)

Module Progress.
Record t := {
  _id : string;
  name : string;
  status : string;
  priority : string;
  dueDate : option Z;
  totalTasks : Z;
  completedTasks : Z;
  progressPercentage : Mongo.number
}.
End Progress.

(** [$lookup] from tasks, [localField: _id], [foreignField: project]. *)
Definition tasksOf (p : Project.t) (tasks : list Task) : list Task :=
  filter (fun t => match project t with
                   | Some i => String.eqb i (Project._id p)
                   | None => false
                   end) tasks.

(** [$filter] with [cond: $$this.status = 'completed']. *)
Definition completedOf (tasks : list Task) : list Task :=
  filter (fun t => String.eqb (status t) "completed") tasks.

(** [$cond] evaluates only the branch it takes. *)
Definition progressPercentage (joined : list Task) : result Mongo.number :=
  if (0 <? Mongo.size joined)%Z
  then
    ratio <- Mongo.divide (Mongo.ofZ (Mongo.size (completedOf joined)))
                          (Mongo.ofZ (Mongo.size joined)) ;;
    Ok (Mongo.multiply ratio (Some 100))
  else Ok (Some 0).

Definition progressRow (tasks : list Task) (p : Project.t) : result Progress.t :=
  let joined := tasksOf p tasks in
  pct <- progressPercentage joined ;;
  Ok {| Progress._id := Project._id p;
        Progress.name := Project.name p;
        Progress.status := Project.status p;
        Progress.priority := Project.priority p;
        Progress.dueDate := Project.dueDate p;
        Progress.totalTasks := Mongo.size joined;
        Progress.completedTasks := Mongo.size (completedOf joined);
        Progress.progressPercentage := pct |}.

Definition projectProgress (projects : list Project.t) (tasks : list Task)
  : result (list Progress.t) :=
  rows <- mapM (progressRow tasks) projects ;;
  Ok (Mongo.sort (fun a b => Mongo.date_leb (Progress.dueDate a) (Progress.dueDate b))
                 rows).

(** The progress percentage in the words of the specification: completed
    over total, times 100, when there is a task, and 0 otherwise. *)
Definition progressPercentage_spec (completedTasks totalTasks : Z) : Q :=
  if (0 <? totalTasks)%Z
  then inject_Z completedTasks / inject_Z totalTasks * 100
  else 0.

(** *** 6. Recent activity *)

Module Activity.
Record t := {
  _id : string;
  title : string;
  status : string;
  priority : string;
  updatedAt : Z;
  projectName : option string   (* [None]: the field is absent *)
}.
End Activity.

(** [$lookup] from projects, [localField: project], [foreignField: _id]; a
    task without the field matches the projects without an [_id]: none. *)
Definition projectInfo (projects : list Project.t) (t : Task) : list Project.t :=
  match project t with
  | Some i => filter (fun p => String.eqb (Project._id p) i) projects
  | None => []
  end.

Definition activityRow (projects : list Project.t) (t : Task) : Activity.t :=
  {| Activity._id := _id t;
     Activity.title := title t;
     Activity.status := status t;
     Activity.priority := priority t;
     Activity.updatedAt := updatedAt t;
     (* $arrayElemAt: ['$projectInfo.name', 0] *)
     Activity.projectName := nth_error (map Project.name (projectInfo projects t)) 0 |}.

(** [startDate] is the date [days] days before the request. *)
Definition recentActivity (startDate : Z) (projects : list Project.t)
  (tasks : list Task) : list Activity.t :=
  map (activityRow projects)
      (firstn 20
         (Mongo.sort (fun a b => (updatedAt b <=? updatedAt a)%Z)
            (filter (fun t => (startDate <=? updatedAt t)%Z) tasks))).

(** *** 7. Performance insights *)

Module Day.
Record t := { _id : string; tasksCompleted : Z }.
End Day.

(** [o.f] where [o] is the outcome of [Array.prototype.find]. *)
Definition get {A B} (o : option A) (f : A -> B) : result B :=
  match o with
  | Some a => Ok (f a)
  | None => Throw TypeError
  end.

Definition hasEstimated (s : TaskStat.t) : bool :=
  Js.truthy (Js.Fin (TaskStat.totalEstimated s)).

Definition hasActual (s : TaskStat.t) : bool :=
  Js.truthy (Js.Fin (TaskStat.totalActual s)).

Definition timeAccuracy (taskStats : list TaskStat.t) : result Js.value :=
  match find (fun s => hasEstimated s && hasActual s) taskStats with
  | Some _ =>
      actual <- get (find hasActual taskStats) TaskStat.totalActual ;;
      estimated <- get (find hasEstimated taskStats) TaskStat.totalEstimated ;;
      Ok (Js.Str (Js.toFixed1
                    (Js.mul (Js.div (Js.Fin actual) (Js.Fin estimated))
                            (Js.ofZ 100))))
  | None => Ok (Js.Number (Js.ofZ 0))
  end.

(** [s?.count || 0] *)
Definition countOrZero (o : option TaskStat.t) : Z :=
  match o with
  | Some s => if (TaskStat.count s =? 0)%Z then 0%Z else TaskStat.count s
  | None => 0%Z
  end.

Definition completionRate (taskStats : list TaskStat.t) : string :=
  Js.toFixed1
    (Js.mul
       (Js.div
          (Js.ofZ (countOrZero
                     (find (fun s => String.eqb (TaskStat._id s) "completed")
                           taskStats)))
          (Js.ofZ (fold_left (fun acc s => (acc + TaskStat.count s)%Z) taskStats 0%Z)))
       (Js.ofZ 100)).

Definition avgTasksPerDay (productivityMetrics : list Day.t) : Js.value :=
  if (0 <? Mongo.size productivityMetrics)%Z
  then Js.Str (Js.toFixed1
                 (Js.div
                    (Js.ofZ (fold_left (fun acc day => (acc + Day.tasksCompleted day)%Z)
                                       productivityMetrics 0%Z))
                    (Js.ofZ (Mongo.size productivityMetrics))))
  else Js.Number (Js.ofZ 0).

Module Insights.
Record t := {
  timeAccuracy : Js.value;
  completionRate : string;
  avgTasksPerDay : Js.value
}.
End Insights.

Definition performanceInsights (taskStats : list TaskStat.t)
  (productivityMetrics : list Day.t) : result Insights.t :=
  accuracy <- timeAccuracy taskStats ;;
  Ok {| Insights.timeAccuracy := accuracy;
        Insights.completionRate := completionRate taskStats;
        Insights.avgTasksPerDay := avgTasksPerDay productivityMetrics |}.

(** The time accuracy in the words of the specification: the actual hours
    summed over all status buckets, divided by the estimated hours summed
    over all status buckets, times 100; 0 when either sum is absent. *)
Definition timeAccuracy_spec (taskStats : list TaskStat.t) : Js.value :=
  let actual := fold_right Qplus 0 (map TaskStat.totalActual taskStats) in
  let estimated := fold_right Qplus 0 (map TaskStat.totalEstimated taskStats) in
  if Js.truthy (Js.Fin actual) && Js.truthy (Js.Fin estimated)
  then Js.Str (Js.toFixed1
                 (Js.mul (Js.div (Js.Fin actual) (Js.Fin estimated)) (Js.ofZ 100)))
  else Js.Number (Js.ofZ 0).

(** ** Responses *)

Inductive response (A : Type) :=
| Json (code : Z) (data : A)          (* [{ success: true, ... }] *)
| Fail (code : Z) (error : string).   (* [{ success: false, error, ... }] *)

Arguments Json {A} code data.
Arguments Fail {A} code error.

(** ** generateReport, type [time-tracking] *)

Module DateFilter.
(** [$gte] and [$lte], each present when the query gives the bound. *)
Record t := { gte : option Z; lte : option Z }.
End DateFilter.

Module TimeRow.
Record t := {
  _id : string;
  title : string;
  estimatedHours : Mongo.number;
  actualHours : Mongo.number;
  variance : Mongo.number;
  variancePercent : Mongo.number
}.
End TimeRow.

Definition exists_ {A} (o : option A) : bool :=
  match o with Some _ => true | None => false end.

(** [completedDate: dateFilter], there only when the filter has a key. *)
Definition inDateFilter (f : DateFilter.t) (d : option Z) : bool :=
  match DateFilter.gte f, DateFilter.lte f with
  | None, None => true
  | lo, hi =>
      match d with
      | Some x =>
          match lo with Some a => (a <=? x)%Z | None => true end
          && match hi with Some b => (x <=? b)%Z | None => true end
      | None => false
      end
  end.

Definition timeTrackingMatch (f : DateFilter.t) (t : Task) : bool :=
  exists_ (estimatedHours t) && exists_ (actualHours t)
  && inDateFilter f (completedDate t).

Definition timeTrackingRow (t : Task) : result TimeRow.t :=
  let diff := Mongo.subtract (actualHours t) (estimatedHours t) in
  ratio <- Mongo.divide diff (estimatedHours t) ;;
  Ok {| TimeRow._id := _id t;
        TimeRow.title := title t;
        TimeRow.estimatedHours := estimatedHours t;
        TimeRow.actualHours := actualHours t;
        TimeRow.variance := diff;
        TimeRow.variancePercent := Mongo.multiply ratio (Some 100) |}.

Definition timeTracking (f : DateFilter.t) (tasks : list Task)
  : result (list TimeRow.t) :=
  mapM timeTrackingRow (filter (timeTrackingMatch f) tasks).

(** The handler at [type = 'time-tracking'] and the default JSON format. *)
Definition generateTimeTrackingReport (f : DateFilter.t) (tasks : list Task)
  : response (list TimeRow.t) :=
  match timeTracking f tasks with
  | Ok reportData => Json 200 reportData
  | Throw _ => Fail 500 "Failed to generate report"
  end.

(** ** convertToCSV *)

Module Csv.

(** A field value: a string, null or undefined, or any other value, kept as
    the text that [ToString] gives it. *)
Inductive cell :=
| Text (s : string)
| Nullish
| Other (shown : string).

(** An object: its own keys in key order, each with its value. *)
Definition record := list (string * cell).

Definition dquote : string := String "034"%char EmptyString.

Definition newline : ascii := "010"%char.

(** The separator [backslash n] of the last [join]. *)
Definition rowSeparator : string :=
  String "092"%char (String "n"%char EmptyString).

(** [item[header]] *)
Definition lookup (item : record) (header : string) : cell :=
  match find (fun kv => String.eqb (fst kv) header) item with
  | Some kv => snd kv
  | None => Nullish
  end.

(** What [join] writes for one mapped field. *)
Definition field (c : cell) : string :=
  match c with
  | Text s => (dquote ++ s ++ dquote)%string
  | Nullish => ""%string
  | Other shown => shown
  end.

Definition convertToCSV (data : list record) : string :=
  match data with
  | [] => ""%string
  | first :: _ =>
      let headers := map fst first in
      let csvHeaders := String.concat "," headers in
      let csvRows :=
        map (fun item => String.concat "," (map (fun h => field (lookup item h)) headers))
            data in
      String.concat rowSeparator (csvHeaders :: csvRows)
  end.

(** No newline character in a string. *)
Fixpoint singleLine (s : string) : bool :=
  match s with
  | EmptyString => true
  | String c r => negb (Ascii.eqb c newline) && singleLine r
  end.

End Csv.

(** ** bulkUpdateTasks *)

Module Updates.
Record t := {
  status : option string;
  priority : option string;
  project : option string
}.
End Updates.

Module Body.
Record t := {
  taskIds : option (list string);   (* [None]: absent, or not an array *)
  updates : option Updates.t;
  operation : option string
}.
End Body.

Module WriteResult.
(** What [updateMany] and [deleteMany] resolve to: the first has no
    [deletedCount], the second no [modifiedCount]. *)
Record t := { modifiedCount : Js.value; deletedCount : Js.value }.
End WriteResult.

Module BulkData.
Record t := {
  operation : option string;
  affectedCount : Js.value;
  taskIds : list string
}.
End BulkData.

Module Store.

Definition opt_eqb {A} (eqb : A -> A -> bool) (a b : option A) : bool :=
  match a, b with
  | Some x, Some y => eqb x y
  | None, None => true
  | _, _ => false
  end.

Definition task_eqb (a b : Task) : bool :=
  String.eqb (_id a) (_id b) && String.eqb (title a) (title b)
  && String.eqb (status a) (status b) && String.eqb (priority a) (priority b)
  && opt_eqb String.eqb (project a) (project b)
  && opt_eqb Z.eqb (dueDate a) (dueDate b)
  && opt_eqb Z.eqb (completedDate a) (completedDate b)
  && opt_eqb Qeq_bool (estimatedHours a) (estimatedHours b)
  && opt_eqb Qeq_bool (actualHours a) (actualHours b)
  && Z.eqb (createdAt a) (createdAt b) && Z.eqb (updatedAt a) (updatedAt b).

(** The filter [{ _id: { $in: taskIds } }]. *)
Definition selected (taskIds : list string) (t : Task) : bool :=
  existsb (String.eqb (_id t)) taskIds.

(** [modifiedCount] counts the selected documents the update changes. *)
Definition updateMany (taskIds : list string) (set : Task -> Task)
  (store : list Task) : list Task * WriteResult.t :=
  (map (fun t => if selected taskIds t then set t else t) store,
   {| WriteResult.modifiedCount :=
        Js.Number (Js.ofZ (Mongo.size
          (filter (fun t => selected taskIds t && negb (task_eqb (set t) t)) store)));
      WriteResult.deletedCount := Js.Undefined |}).

Definition deleteMany (taskIds : list string) (store : list Task)
  : list Task * WriteResult.t :=
  (filter (fun t => negb (selected taskIds t)) store,
   {| WriteResult.modifiedCount := Js.Undefined;
      WriteResult.deletedCount :=
        Js.Number (Js.ofZ (Mongo.size (filter (selected taskIds) store))) |}).

End Store.

Definition setStatus (s : string) (now : Z) (t : Task) : Task :=
  {| _id := _id t; title := title t; status := s; priority := priority t;
     project := project t; dueDate := dueDate t;
     completedDate := completedDate t; estimatedHours := estimatedHours t;
     actualHours := actualHours t; createdAt := createdAt t; updatedAt := now |}.

Definition setPriority (p : string) (now : Z) (t : Task) : Task :=
  {| _id := _id t; title := title t; status := status t; priority := p;
     project := project t; dueDate := dueDate t;
     completedDate := completedDate t; estimatedHours := estimatedHours t;
     actualHours := actualHours t; createdAt := createdAt t; updatedAt := now |}.

Definition setProject (p : string) (now : Z) (t : Task) : Task :=
  {| _id := _id t; title := title t; status := status t; priority := priority t;
     project := Some p; dueDate := dueDate t;
     completedDate := completedDate t; estimatedHours := estimatedHours t;
     actualHours := actualHours t; createdAt := createdAt t; updatedAt := now |}.

(** [!v] on a payload field: absent and the empty string are falsy. *)
Definition present (v : option string) : option string :=
  match v with
  | Some s => if String.eqb s "" then None else Some s
  | None => None
  end.

Definition isOperation (operation : option string) (name : string) : bool :=
  match operation with Some s => String.eqb s name | None => false end.

(** One case of the [switch]: the early reply when the payload field is
    falsy, the write otherwise. *)
Definition updateCase (v : option string) (missing : string)
  (taskIds : list string) (set : string -> Task -> Task) (store : list Task)
  : response BulkData.t + list Task * WriteResult.t :=
  match present v with
  | None => inl (Fail 400 missing)
  | Some x => inr (Store.updateMany taskIds (set x) store)
  end.

(** The [switch]: an early reply, or the store after the write with what the
    write resolved to.  [now] is the [new Date()] of the update document. *)
Definition switchOperation (now : Z) (taskIds : list string) (body : Body.t)
  (store : list Task)
  : result (response BulkData.t + list Task * WriteResult.t) :=
  if isOperation (Body.operation body) "update-status" then
    v <- get (Body.updates body) Updates.status ;;
    Ok (updateCase v "Status is required for status update" taskIds
          (fun s => setStatus s now) store)
  else if isOperation (Body.operation body) "update-priority" then
    v <- get (Body.updates body) Updates.priority ;;
    Ok (updateCase v "Priority is required for priority update" taskIds
          (fun p => setPriority p now) store)
  else if isOperation (Body.operation body) "assign-project" then
    v <- get (Body.updates body) Updates.project ;;
    Ok (updateCase v "Project is required for project assignment" taskIds
          (fun p => setProject p now) store)
  else if isOperation (Body.operation body) "delete" then
    Ok (inr (Store.deleteMany taskIds store))
  else Ok (inl (Fail 400 "Invalid operation")).

(** The handler: the reply and the store it leaves. *)
Definition bulkUpdateTasks (now : Z) (body : Body.t) (store : list Task)
  : response BulkData.t * list Task :=
  match Body.taskIds body with
  | None | Some [] => (Fail 400 "Validation failed", store)
  | Some taskIds =>
      match switchOperation now taskIds body store with
      | Ok (inl reply) => (reply, store)
      | Ok (inr (store', result)) =>
          (Json 200
             {| BulkData.operation := Body.operation body;
                BulkData.affectedCount :=
                  Js.or (WriteResult.modifiedCount result)
                        (WriteResult.deletedCount result);
                BulkData.taskIds := taskIds |},
           store')
      | Throw _ => (Fail 500 "Failed to perform bulk update", store)
      end
  end.

(** ** The Task model: virtuals, save hook, statics *)

Module TaskModel.

(** The virtual [isOverdue]; [now] is the [new Date()] of its last line. *)
Definition isOverdue (now : Z) (t : Task) : bool :=
  match dueDate t with
  | None => false
  | Some due =>
      if String.eqb (status t) "completed" || String.eqb (status t) "cancelled"
      then false
      else (due <? now)%Z
  end.

(** The virtual [timeVariance]: null when an hour figure is absent or 0. *)
Definition timeVariance (t : Task) : Mongo.number :=
  match estimatedHours t, actualHours t with
  | Some estimated, Some actual =>
      if Qeq_bool estimated 0 || Qeq_bool actual 0 then None
      else Some (actual - estimated)
  | _, _ => None
  end.

Definition withCompletedDate (d : option Z) (t : Task) : Task :=
  {| _id := _id t; title := title t; status := status t; priority := priority t;
     project := project t; dueDate := dueDate t; completedDate := d;
     estimatedHours := estimatedHours t; actualHours := actualHours t;
     createdAt := createdAt t; updatedAt := updatedAt t |}.

(** The [pre('save')] hook; [statusModified] is [this.isModified('status')]
    and [now] the [new Date()] of the first branch. *)
Definition preSave (statusModified : bool) (now : Z) (t : Task) : Task :=
  if statusModified then
    if String.eqb (status t) "completed" && negb (exists_ (completedDate t))
    then withCompletedDate (Some now) t
    else if negb (String.eqb (status t) "completed")
         then withCompletedDate None t
         else t
  else t.

(** The static [findOverdue], with [now] its [new Date()]. *)
Definition findOverdue (now : Z) (tasks : list Task) : list Task :=
  filter (fun t =>
            match dueDate t with Some due => (due <? now)%Z | None => false end
            && negb (existsb (String.eqb (status t))
                             ["completed"; "cancelled"]%string))
         tasks.

(** The static [findByPriority]: [find({ priority }).sort({ dueDate: 1 })]. *)
Definition findByPriority (p : string) (tasks : list Task) : list Task :=
  Mongo.sort (fun a b => Mongo.date_leb (dueDate a) (dueDate b))
             (filter (fun t => String.eqb (priority t) p) tasks).

End TaskModel.

(** ** Error handling middleware *)

Module Err.
(** An error object: [keyValue] holds the keys of [err.keyValue], [errors]
    the messages of the values of [err.errors]; [None] is an absent
    property. *)
Record t := {
  name : string;
  message : string;
  statusCode : option Z;
  code : option Z;
  status : option Z;
  keyValue : option (list string);
  errors : option (list string)
}.
End Err.

(** [new Error(message)] with its [statusCode]: the two properties the
    handler reads back. *)
Definition createError (message : string) (statusCode : Z) : string * option Z :=
  (message, Some statusCode).

Definition plainError (message : string) (statusCode : Z) : Err.t :=
  {| Err.name := "Error"; Err.message := message;
     Err.statusCode := Some statusCode; Err.code := None; Err.status := None;
     Err.keyValue := None; Err.errors := None |}.

(** The error [notFoundHandler] hands to [next]. *)
Definition notFoundHandler (originalUrl : string) : Err.t :=
  plainError ("Endpoint not found - " ++ originalUrl) 404.

(** The error the timer of [requestTimeout] hands to [next]. *)
Definition requestTimeout : Err.t := plainError "Request timeout" 408.

Definition optZ_is (o : option Z) (n : Z) : bool :=
  match o with Some m => (m =? n)%Z | None => false end.

(** The status and the [error] text of the reply, outside development mode.
    [error] is the pair (message, statusCode) of the local variable. *)
Definition globalErrorHandler (err : Err.t) : result (Z * string) :=
  let error := (Err.message err, Err.statusCode err) in
  let error :=
    if String.eqb (Err.name err) "CastError"
    then createError "Resource not found" 404 else error in
  error <-
    (if optZ_is (Err.code err) 11000 then
       field <- get (Err.keyValue err) (fun keys => nth 0 keys "undefined"%string) ;;
       Ok (createError ("Duplicate field value for " ++ field
                        ++ ". Please use another value.") 409)
     else Ok error) ;;
  error <-
    (if String.eqb (Err.name err) "ValidationError" then
       messages <- get (Err.errors err) (fun ms => ms) ;;
       Ok (createError (String.concat ", " messages) 400)
     else Ok error) ;;
  let error :=
    if String.eqb (Err.name err) "JsonWebTokenError"
    then createError "Invalid token" 401 else error in
  let error :=
    if String.eqb (Err.name err) "TokenExpiredError"
    then createError "Token expired" 401 else error in
  let error :=
    if optZ_is (Err.status err) 429
    then createError "Too many requests, please try again later" 429
    else error in
  Ok (match snd error with
      | Some c => if (c =? 0)%Z then 500%Z else c
      | None => 500%Z
      end,
      if String.eqb (fst error) "" then "Internal Server Error"%string
      else fst error).

(** ** The project controller *)

Module Db.
Record t := { projects : list Project.t; tasks : list Task }.
End Db.

(** The filter [{ project: id }]. *)
Definition references (id : string) (t : Task) : bool :=
  match project t with
  | Some i => String.eqb i id
  | None => false
  end.

(** [v === 'true'] on a query parameter. *)
Definition isTrue (v : option string) : bool :=
  match v with Some s => String.eqb s "true" | None => false end.

(** [Project.findByIdAndDelete]: the project found, and the collection
    without it. *)
Fixpoint findByIdAndDelete (id : string) (projects : list Project.t)
  : option Project.t * list Project.t :=
  match projects with
  | [] => (None, [])
  | p :: r =>
      if String.eqb (Project._id p) id then (Some p, r)
      else let (found, r') := findByIdAndDelete id r in (found, p :: r')
  end.

Module Deleted.
Record t := { id : string; name : string; deletedTasksCount : Z }.
End Deleted.

Definition deleteProject (id : string) (deleteTasks : option string) (db : Db.t)
  : response Deleted.t * Db.t :=
  let taskCount := Mongo.size (filter (references id) (Db.tasks db)) in
  if (0 <? taskCount)%Z && negb (isTrue deleteTasks)
  then (Fail 409 "Project has associated tasks", db)
  else
    match findByIdAndDelete id (Db.projects db) with
    | (None, _) => (Fail 404 "Project not found", db)
    | (Some deletedProject, projects) =>
        if isTrue deleteTasks
        then
          (Json 200
             {| Deleted.id := Project._id deletedProject;
                Deleted.name := Project.name deletedProject;
                Deleted.deletedTasksCount :=
                  Mongo.size (filter (references id) (Db.tasks db)) |},
           {| Db.projects := projects;
              Db.tasks := filter (fun t => negb (references id t)) (Db.tasks db) |})
        else
          (Json 200
             {| Deleted.id := Project._id deletedProject;
                Deleted.name := Project.name deletedProject;
                Deleted.deletedTasksCount := 0 |},
           {| Db.projects := projects; Db.tasks := Db.tasks db |})
    end.

(** *** getProjectTasks *)

(** [Math.ceil] *)
Definition ceil (x : Js.num) : Js.num :=
  match x with
  | Js.Fin q => Js.ofZ (Qceiling q)
  | other => other
  end.

(** [a < b] on numbers *)
Definition lt (a b : Js.num) : bool :=
  match a, b with
  | Js.NaN, _ | _, Js.NaN => false
  | Js.Fin x, Js.Fin y => negb (Qle_bool y x)
  | Js.Fin _, Js.PosInf | Js.NegInf, Js.Fin _ | Js.NegInf, Js.PosInf => true
  | _, _ => false
  end.

Module TaskQuery.
(** The query string: [page] and [limit] hold an integer when present. *)
Record t := {
  status : option string;
  priority : option string;
  page : option Z;
  limit : option Z;
  sortBy : option string;
  sortOrder : option string
}.
End TaskQuery.

Module Pagination.
Record t := {
  currentPage : Z;
  totalPages : Js.num;
  totalTasks : Z;
  hasNextPage : bool;
  hasPrevPage : bool
}.
End Pagination.

Module ProjectTasks.
Record t := {
  data : list Task;
  projectId : string;
  projectName : string;
  projectStatus : string;
  pagination : Pagination.t
}.
End ProjectTasks.

Definition orDefault {A} (v : option A) (d : A) : A :=
  match v with Some x => x | None => d end.

(** One more condition of the filter when the query parameter is truthy. *)
Definition matches (v : option string) (field : Task -> string) (t : Task) : bool :=
  match present v with
  | Some x => String.eqb (field t) x
  | None => true
  end.

(** [.limit(n)]: 0 sets no limit; a negative [n] limits like its absolute
    value. *)
Definition cursorLimit {A} (n : Z) (l : list A) : list A :=
  if (n =? 0)%Z then l else firstn (Z.to_nat (Z.abs n)) l.

Section ProjectTasks.
(** [ascending f a b]: [a] does not come after [b] in MongoDB's ascending
    order on the field [f]. *)
Variable ascending : string -> Task -> Task -> bool.

(** The order of [{ [sortBy]: sortOrder === 'asc' ? 1 : -1 }]. *)
Definition sortOrderOf (sortBy sortOrder : string) (a b : Task) : bool :=
  if String.eqb sortOrder "asc" then ascending sortBy a b
  else ascending sortBy b a.

(** The documents of [Task.find(filter).sort(sort)]. *)
Definition projectTasksFound (id : string) (q : TaskQuery.t) (tasks : list Task)
  : list Task :=
  Mongo.sort (sortOrderOf (orDefault (TaskQuery.sortBy q) "createdAt"%string)
                          (orDefault (TaskQuery.sortOrder q) "desc"%string))
    (filter (fun t => references id t
                      && matches (TaskQuery.status q) status t
                      && matches (TaskQuery.priority q) priority t)
            tasks).

(** A negative [skip] makes the query fail. *)
Definition getProjectTasks (id : string) (q : TaskQuery.t) (db : Db.t)
  : response ProjectTasks.t :=
  match find (fun p => String.eqb (Project._id p) id) (Db.projects db) with
  | None => Fail 404 "Project not found"
  | Some project =>
      let page := orDefault (TaskQuery.page q) 1%Z in
      let limit := orDefault (TaskQuery.limit q) 50%Z in
      let skip := ((page - 1) * limit)%Z in
      let found := projectTasksFound id q (Db.tasks db) in
      if (skip <? 0)%Z then Fail 500 "Failed to fetch project tasks"
      else
        let total := Mongo.size found in
        let totalPages := ceil (Js.div (Js.ofZ total) (Js.ofZ limit)) in
        Json 200
          {| ProjectTasks.data := cursorLimit limit (skipn (Z.to_nat skip) found);
             ProjectTasks.projectId := Project._id project;
             ProjectTasks.projectName := Project.name project;
             ProjectTasks.projectStatus := Project.status project;
             ProjectTasks.pagination :=
               {| Pagination.currentPage := page;
                  Pagination.totalPages := totalPages;
                  Pagination.totalTasks := total;
                  Pagination.hasNextPage := lt (Js.ofZ page) totalPages;
                  Pagination.hasPrevPage := (1 <? page)%Z |} |}
  end.
End ProjectTasks.

(** *** getProjectStats *)

Module StatusCount.
Record t := { _id : string; count : Z }.
End StatusCount.





Module TopProject.
Record t := {
  _id : string;
  name : string;
  status : string;
  priority : string;
  taskCount : Z
}.
End TopProject.


Module Stats.
Record t := {
  projectsTotal : Z;
  projectsByStatus : list (string * Z);
  tasksTotal : Z;
  tasksOverdue : Z;
  tasksByStatus : list (string * Z);
  topProjects : list TopProject.t
}.
End Stats.


(** ** generateReport, type [project-performance] *)

Module ProjectDoc.
(** A project with the two dates this report reads besides [dueDate]. *)
Record t := {
  base : Project.t;
  startDate : option Z;
  completedDate : option Z
}.
End ProjectDoc.

Module Performance.
Record t := {
  _id : string;
  name : string;
  status : string;
  startDate : option Z;
  dueDate : option Z;
  completedDate : option Z;
  totalTasks : Z;
  completedTasks : Z;
  totalEstimatedHours : Q;
  totalActualHours : Q;
  onTimeCompletion : option bool   (* [None]: null *)
}.
End Performance.

(** The [$cond] under [onTimeCompletion]; a date is always true in [$and]. *)
Definition onTimeCompletion (completedDate dueDate : option Z) : option bool :=
  match completedDate, dueDate with
  | Some c, Some d => Some (c <=? d)%Z
  | _, _ => None
  end.

Definition projectPerformance (projects : list ProjectDoc.t) (tasks : list Task)
  : list Performance.t :=
  map (fun p =>
         let joined := tasksOf (ProjectDoc.base p) tasks in
         {| Performance._id := Project._id (ProjectDoc.base p);
            Performance.name := Project.name (ProjectDoc.base p);
            Performance.status := Project.status (ProjectDoc.base p);
            Performance.startDate := ProjectDoc.startDate p;
            Performance.dueDate := Project.dueDate (ProjectDoc.base p);
            Performance.completedDate := ProjectDoc.completedDate p;
            Performance.totalTasks := Mongo.size joined;
            Performance.completedTasks := Mongo.size (completedOf joined);
            Performance.totalEstimatedHours := Mongo.sum (map estimatedHours joined);
            Performance.totalActualHours := Mongo.sum (map actualHours joined);
            Performance.onTimeCompletion :=
              onTimeCompletion (ProjectDoc.completedDate p)
                               (Project.dueDate (ProjectDoc.base p)) |})
      projects.

(** The project reference of a task is absent, or names a project of the
    collection. *)
Definition resolved (projects : list Project.t) (t : Task) : bool :=
  match project t with
  | Some i => existsb (fun p => String.eqb (Project._id p) i) projects
  | None => true
  end.



(** ** Sample data *)

Module Sample.

Definition task (id st pr : string) : Task :=
  {| _id := id; title := "task"; status := st; priority := pr;
     project := None; dueDate := None; completedDate := None;
     estimatedHours := None; actualHours := None;
     createdAt := 0; updatedAt := 0 |}.

Definition board : list Task :=
  [task "a" "todo" "high"; task "b" "completed" "high"; task "c" "todo" "low"].

Definition timed (id st : string) (est act : option Q) : Task :=
  {| _id := id; title := "task"; status := st; priority := "medium";
     project := None; dueDate := None; completedDate := None;
     estimatedHours := est; actualHours := act;
     createdAt := 0; updatedAt := 0 |}.

(** An estimate without tracked time, and a completed task with both. *)
Definition tracked : list Task :=
  [timed "a" "todo" (Some 4) None; timed "b" "completed" (Some 8) (Some 6)].

(** A clock that advances by one millisecond between two readings. *)
Definition ticking : Clock.t :=
  {| Clock.reading := fun n => (1000000000000 + Z.of_nat n)%Z;
     Clock.reads := 0 |}.

(** A task due one day before the first reading of [ticking], and one due
    at the first reading. *)
Definition late : list Task :=
  [ {| _id := "a"; title := "task"; status := "todo"; priority := "high";
       project := None; dueDate := Some (1000000000000 - 86400000)%Z;
       completedDate := None; estimatedHours := None; actualHours := None;
       createdAt := 0; updatedAt := 0 |};
    {| _id := "b"; title := "task"; status := "todo"; priority := "high";
       project := None; dueDate := Some 1000000000000%Z;
       completedDate := None; estimatedHours := None; actualHours := None;
       createdAt := 0; updatedAt := 0 |} ].

Definition linked (id st : string) (p : option string) (updated : Z) : Task :=
  {| _id := id; title := "task"; status := st; priority := "medium";
     project := p; dueDate := None; completedDate := None;
     estimatedHours := None; actualHours := None;
     createdAt := 0; updatedAt := updated |}.

(** Two tasks of project p1, one task of a project that is gone, one task
    without a project. *)
Definition backlog : list Task :=
  [linked "a" "completed" (Some "p1"%string) 40;
   linked "b" "todo" (Some "p1"%string) 30;
   linked "c" "todo" (Some "p9"%string) 20;
   linked "d" "todo" None 10].

(** Project p2 has no task. *)
Definition projects : list Project.t :=
  [ {| Project._id := "p1"; Project.name := "Alpha";
       Project.status := "in-progress"; Project.priority := "high";
       Project.dueDate := Some 5%Z |};
    {| Project._id := "p2"; Project.name := "Beta";
       Project.status := "planning"; Project.priority := "low";
       Project.dueDate := None |} ].

(** A report row whose title holds a line break. *)
Definition twoLineTitle : list Csv.record :=
  [ [ ("title"%string,
       Csv.Text (String "a"%char (String Csv.newline (String "b"%char EmptyString))));
      ("variance"%string, Csv.Other "2") ] ].

Definition report : list Csv.record :=
  [ [ ("title"%string, Csv.Text "Draft docs"); ("variance"%string, Csv.Other "2") ];
    [ ("title"%string, Csv.Text "Fix, test"); ("variance"%string, Csv.Nullish) ] ].

(** The scenario of the specification: no estimate, five hours spent. *)
Definition unestimated : list Task :=
  [timed "z" "todo" (Some 0) (Some 5)].

Definition anyDate : DateFilter.t :=
  {| DateFilter.gte := None; DateFilter.lte := None |}.

Definition toCompleted : Updates.t :=
  {| Updates.status := Some "completed"%string;
     Updates.priority := None; Updates.project := None |}.

Definition request (ids : list string) (u : option Updates.t) (op : string)
  : Body.t :=
  {| Body.taskIds := Some ids; Body.updates := u; Body.operation := Some op |}.


Definition noIds : Body.t :=
  {| Body.taskIds := Some []; Body.updates := Some toCompleted;
     Body.operation := Some "update-status"%string |}.

(** A task saved as completed a first time, at date 500. *)
Definition done : Task :=
  {| _id := "e"; title := "task"; status := "completed"; priority := "low";
     project := None; dueDate := Some 900%Z; completedDate := Some 500%Z;
     estimatedHours := Some 2; actualHours := Some 3;
     createdAt := 0; updatedAt := 500 |}.

(** A Mongoose validation error with two failed fields. *)
Definition invalid : Err.t :=
  {| Err.name := "ValidationError"; Err.message := "Task validation failed";
     Err.statusCode := None; Err.code := None; Err.status := None;
     Err.keyValue := None;
     Err.errors := Some ["Task title is required";
                         "Estimated hours cannot be negative"]%string |}.



(** The sample projects with the tasks that reference them. *)
Definition db : Db.t :=
  {| Db.projects := projects;
     Db.tasks := [linked "a" "completed" (Some "p1"%string) 40;
                  linked "b" "todo" (Some "p1"%string) 30;
                  linked "d" "todo" None 10] |}.

(** An ascending order for the two time stamps; any other field leaves the
    documents as they come. *)
Definition byField (f : string) (a b : Task) : bool :=
  if String.eqb f "createdAt" then (createdAt a <=? createdAt b)%Z
  else if String.eqb f "updatedAt" then (updatedAt a <=? updatedAt b)%Z
  else true.

(** Pages of one task, by [updatedAt] ascending. *)
Definition onePerPage : TaskQuery.t :=
  {| TaskQuery.status := None; TaskQuery.priority := None;
     TaskQuery.page := Some 2%Z; TaskQuery.limit := Some 1%Z;
     TaskQuery.sortBy := Some "updatedAt"%string;
     TaskQuery.sortOrder := Some "asc"%string |}.

(** A clock that does not go back. *)
Definition steady : Clock.t :=
  {| Clock.reading := fun n => (2000000000000 + Z.of_nat n)%Z; Clock.reads := 0 |}.

Definition performance : list ProjectDoc.t :=
  [ {| ProjectDoc.base := {| Project._id := "p1"; Project.name := "Alpha";
                             Project.status := "completed";
                             Project.priority := "high";
                             Project.dueDate := Some 5%Z |};
       ProjectDoc.startDate := Some 1%Z;
       ProjectDoc.completedDate := Some 7%Z |} ].

End Sample.

(** * Properties *)

Unset Implicit Arguments.

(** ** The result monad *)

Lemma mapM_ok {A B} (f : A -> result B) (g : A -> B) (l : list A) :
  (forall x, In x l -> f x = Ok (g x)) -> mapM f l = Ok (map g l).
Proof.
  induction l as [|x r IH]; intros H; simpl; [reflexivity|].
  rewrite (H x (or_introl eq_refl)); simpl.
  rewrite IH; [reflexivity|].
  intros y Hy. apply H. now right.
Qed.

(** ** [$group] *)

Section GroupFacts.
Variables (A K : Type).
Variable eqb : K -> K -> bool.
Hypothesis eqb_spec : forall a b, reflect (a = b) (eqb a b).
Variable key : A -> K.

Local Abbreviation insert_group := (Mongo.insert_group eqb).
Local Abbreviation group_by := (Mongo.group_by eqb key).
Local Abbreviation members := (Mongo.members eqb key).
Local Abbreviation grouped := (Mongo.grouped eqb key).

Lemma insert_group_keys k (x : A) gs k' :
  In k' (map fst (insert_group k x gs)) <-> k' = k \/ In k' (map fst gs).
Proof.
  induction gs as [|[k0 xs] r IH]; simpl.
  - intuition.
  - destruct (eqb_spec k k0) as [->|Hne]; simpl.
    + intuition.
    + rewrite IH. intuition.
Qed.

Lemma insert_group_NoDup k (x : A) gs :
  NoDup (map fst gs) -> NoDup (map fst (insert_group k x gs)).
Proof.
  induction gs as [|[k0 xs] r IH]; simpl; intros Hnd.
  - constructor; [intros []|constructor].
  - inversion Hnd as [|? ? Hnotin Hr]; subst.
    destruct (eqb_spec k k0) as [->|Hne]; simpl.
    + now constructor.
    + constructor; [|now apply IH].
      rewrite insert_group_keys. intros [->|Hin]; [now apply Hne|now apply Hnotin].
Qed.

(** Where a group of the new table comes from. *)
Lemma insert_group_in k (x : A) gs k' xs' :
  NoDup (map fst gs) ->
  In (k', xs') (insert_group k x gs) ->
  (k' <> k /\ In (k', xs') gs)
  \/ (k' = k /\ ~ In k (map fst gs) /\ xs' = [x])
  \/ (k' = k /\ exists xs, In (k, xs) gs /\ xs' = xs ++ [x]).
Proof.
  induction gs as [|[k0 xs] r IH]; simpl; intros Hnd Hin.
  - destruct Hin as [Heq|[]]. inversion Heq; subst. right; left. intuition.
  - inversion Hnd as [|? ? Hnotin Hr]; subst.
    destruct (eqb_spec k k0) as [->|Hne]; simpl in Hin.
    + destruct Hin as [Heq|Hin].
      * inversion Heq; subst. right; right. split; [reflexivity|].
        exists xs. split; [now left|reflexivity].
      * left. split; [|now right].
        intros ->. apply Hnotin. now apply (in_map fst) in Hin.
    + destruct Hin as [Heq|Hin].
      * inversion Heq; subst. left. split; [congruence|now left].
      * destruct (IH Hr Hin) as [[Hk Hi]|[[Hk [Hn Hx]]|[Hk [ys [Hi Hx]]]]].
        -- left. split; [assumption|now right].
        -- right; left. repeat split; try assumption.
           intros [Heq|Hi]; [now apply Hne|now apply Hn].
        -- right; right. split; [assumption|].
           exists ys. split; [now right|assumption].
Qed.

Lemma insert_group_concat k (x : A) gs :
  Permutation (List.concat (map snd (insert_group k x gs)))
              (List.concat (map snd gs) ++ [x]).
Proof.
  induction gs as [|[k0 xs] r IH]; simpl.
  - reflexivity.
  - destruct (eqb k k0); simpl.
    + rewrite <- !app_assoc. apply Permutation_app_head, Permutation_app_comm.
    + rewrite <- app_assoc. now apply Permutation_app_head.
Qed.

Lemma members_app k l1 l2 : members k (l1 ++ l2) = members k l1 ++ members k l2.
Proof. apply filter_app. Qed.

Lemma members_nil k l : (forall x, In x l -> key x <> k) -> members k l = [].
Proof.
  induction l as [|x r IH]; intros H; simpl; [reflexivity|].
  destruct (eqb_spec (key x) k) as [Heq|_].
  - exfalso. apply (H x); [now left|assumption].
  - apply IH. intros y Hy. apply H. now right.
Qed.

Lemma grouped_step seen gs x :
  grouped seen gs -> grouped (seen ++ [x]) (insert_group (key x) x gs).
Proof.
  intros (Hnd & Hmem & Hcov & Hperm). repeat split.
  - now apply insert_group_NoDup.
  - destruct (insert_group_in _ _ _ _ _ Hnd H)
      as [[Hk Hi]|[[Hk [Hn Hx]]|[Hk [ys [Hi Hx]]]]]; subst.
    + rewrite members_app. simpl.
      destruct (eqb_spec (key x) k) as [Heq|_]; [now elim Hk|].
      rewrite app_nil_r. now apply Hmem.
    + rewrite members_app. simpl.
      destruct (eqb_spec (key x) (key x)) as [_|Hne]; [|now elim Hne].
      rewrite members_nil; [reflexivity|].
      intros y Hy Heq. apply Hn. rewrite <- Heq. now apply Hcov.
    + rewrite members_app. simpl.
      destruct (eqb_spec (key x) (key x)) as [_|Hne]; [|now elim Hne].
      now rewrite (proj1 (Hmem _ _ Hi)).
  - destruct (insert_group_in _ _ _ _ _ Hnd H)
      as [[Hk Hi]|[[Hk [Hn Hx]]|[Hk [ys [Hi Hx]]]]]; subst.
    + exact (proj2 (Hmem _ _ Hi)).
    + discriminate.
    + intros Habs. now apply app_eq_nil in Habs as [_ Habs].
  - intros y Hy. rewrite insert_group_keys.
    apply in_app_or in Hy as [Hy|[->|[]]]; [right; now apply Hcov|now left].
  - rewrite insert_group_concat. now apply Permutation_app_tail.
Qed.

Lemma grouped_fold l : forall seen gs,
  grouped seen gs ->
  grouped (seen ++ l) (fold_left (fun gs x => insert_group (key x) x gs) l gs).
Proof.
  induction l as [|x r IH]; intros seen gs H; simpl.
  - now rewrite app_nil_r.
  - replace (seen ++ x :: r) with ((seen ++ [x]) ++ r)
      by now rewrite <- app_assoc.
    apply IH. now apply grouped_step.
Qed.

Lemma group_by_grouped l : grouped l (group_by l).
Proof.
  apply (grouped_fold l [] []). repeat split; simpl; try constructor.
  - destruct H.
  - destruct H.
  - intros x [].
Qed.

End GroupFacts.

Lemma pair_eqb_spec (a b : string * string) : reflect (a = b) (pair_eqb a b).
Proof.
  destruct a as [a1 a2], b as [b1 b2]. unfold pair_eqb; simpl.
  destruct (String.eqb_spec a1 b1), (String.eqb_spec a2 b2); simpl;
    constructor; congruence.
Qed.

Lemma count_size {A} (g : list A) : Mongo.count g = Mongo.size g.
Proof.
  unfold Mongo.count, Mongo.size.
  induction g as [|x r IH]; [reflexivity|].
  cbn [map Mongo.sumZ fold_right List.length]. fold (Mongo.sumZ (map (fun _ : A => 1%Z) r)).
  rewrite IH. lia.
Qed.

Lemma size_nonneg {A} (g : list A) : (0 <= Mongo.size g)%Z.
Proof. unfold Mongo.size. lia. Qed.

Lemma size_filter_le {A} (f : A -> bool) (l : list A) :
  (Mongo.size (filter f l) <= Mongo.size l)%Z.
Proof.
  unfold Mongo.size. apply inj_le.
  induction l as [|x r IH]; simpl; [lia|]. destruct (f x); simpl; lia.
Qed.

Lemma sumZ_sizes {A K} (gs : list (K * list A)) :
  Mongo.sumZ (map (fun g => Mongo.count (snd g)) gs)
  = Mongo.size (List.concat (map snd gs)).
Proof.
  induction gs as [|[k xs] r IH]; [reflexivity|].
  cbn [map Mongo.sumZ fold_right List.concat snd].
  fold (Mongo.sumZ (map (fun g : K * list A => Mongo.count (snd g)) r)).
  rewrite IH, count_size. unfold Mongo.size. rewrite length_app. lia.
Qed.

(** ** Priority distribution *)

Lemma priorityRows_ids (cells : list Cell.t) :
  map PriorityRow._id (priorityRows cells)
  = map fst (Mongo.group_by String.eqb Cell.priority cells).
Proof. unfold priorityRows. rewrite map_map. reflexivity. Qed.

Lemma priorityCells_cover (tasks : list Task) (t : Task) :
  In t tasks ->
  exists c, In c (priorityCells tasks) /\ Cell.priority c = priority t.
Proof.
  intros Hin.
  destruct (group_by_grouped _ _ _ pair_eqb_spec
              (fun t => (priority t, status t)) tasks) as (_ & _ & Hcov & _).
  apply Hcov, in_map_iff in Hin. destruct Hin as ([k xs] & Hk & Hg).
  simpl in Hk; subst k.
  exists {| Cell.priority := priority t; Cell.status := status t;
            Cell.count := Mongo.count xs |}.
  split; [|reflexivity].
  unfold priorityCells. apply in_map_iff.
  exists ((priority t, status t), xs). split; [reflexivity|assumption].
Qed.

(** C8. In the priority distribution, the priority of every task is the
    [_id] of exactly one row, and the [total] of every row is the sum of the
    counts of its [statusBreakdown]. *)
Theorem priorityDistribution_once_and_total (tasks : list Task) :
  (forall t, In t tasks ->
     count_occ string_dec
       (map PriorityRow._id (priorityDistribution tasks)) (priority t) = 1%nat)
  /\ (forall row, In row (priorityDistribution tasks) ->
        PriorityRow.total row
        = Mongo.sumZ (map Breakdown.count (PriorityRow.statusBreakdown row))).
Proof.
  split.
  - intros t Hin. unfold priorityDistribution.
    destruct (group_by_grouped _ _ _ String.eqb_spec Cell.priority
                (priorityCells tasks)) as (Hnd & _ & Hcov & _).
    rewrite priorityRows_ids.
    apply (proj1 (NoDup_count_occ' string_dec _) Hnd).
    destruct (priorityCells_cover tasks t Hin) as (c & Hc & <-).
    now apply Hcov.
  - intros row Hin. unfold priorityDistribution, priorityRows in Hin.
    apply in_map_iff in Hin. destruct Hin as ([p g] & <- & _). simpl.
    rewrite map_map. reflexivity.
Qed.

Lemma priorityDistribution_once_and_total_witness :
  count_occ string_dec
    (map PriorityRow._id (priorityDistribution Sample.board)) "high"%string = 1%nat
  /\ PriorityRow.total
       {| PriorityRow._id := "high";
          PriorityRow.statusBreakdown :=
            [ {| Breakdown.status := "todo"; Breakdown.count := 1 |};
              {| Breakdown.status := "completed"; Breakdown.count := 1 |} ];
          PriorityRow.total := 2 |} = 2%Z.
Proof.
  split.
  - apply (proj1 (priorityDistribution_once_and_total Sample.board)
             (Sample.task "a" "todo" "high")).
    simpl. auto.
  - apply (proj2 (priorityDistribution_once_and_total Sample.board)).
    vm_compute. auto.
Defined.

Lemma filter_length_perm {A} (f : A -> bool) (l l' : list A) :
  Permutation l l' -> List.length (filter f l) = List.length (filter f l').
Proof.
  induction 1 as [|x l l' _ IH|x y l|l l' l'' _ IH1 _ IH2]; simpl.
  - reflexivity.
  - destruct (f x); simpl; now rewrite IH.
  - destruct (f x), (f y); reflexivity.
  - now rewrite IH1.
Qed.

(** The groups whose key has the priority [p] hold the tasks of priority
    [p], when every group holds tasks of its own key only. *)
Lemma groups_of_priority (p : string) (gs : list (string * string * list Task)) :
  (forall k xs x, In (k, xs) gs -> In x xs -> (priority x, status x) = k) ->
  List.concat (map snd (filter (fun g => String.eqb (fst (fst g)) p) gs))
  = filter (fun t => String.eqb (priority t) p) (List.concat (map snd gs)).
Proof.
  induction gs as [|[k xs] r IH]; intros Hhom; [reflexivity|].
  cbn [filter map List.concat fst snd]. rewrite filter_app.
  assert (Hr : forall k' xs' x, In (k', xs') r -> In x xs' ->
                                (priority x, status x) = k')
    by (intros k' xs' x Hin; apply Hhom; now right).
  assert (Hxs : forall x, In x xs -> priority x = fst k).
  { intros x Hx. now rewrite <- (Hhom k xs x (or_introl eq_refl) Hx). }
  destruct (String.eqb_spec (fst k) p) as [Hk|Hk]; cbn [map List.concat snd].
  - rewrite (IH Hr). f_equal. symmetry.
    apply forallb_filter_id, forallb_forall. intros x Hx.
    rewrite (Hxs x Hx), Hk. apply String.eqb_refl.
  - rewrite (IH Hr).
    replace (filter (fun t => String.eqb (priority t) p) xs) with (@nil Task);
      [reflexivity|].
    symmetry. clear -Hxs Hk. induction xs as [|x xs IH]; [reflexivity|]. simpl.
    destruct (String.eqb_spec (priority x) p) as [Hp|_].
    + elim Hk. rewrite <- Hp. symmetry. apply Hxs. now left.
    + apply IH. intros y Hy. apply Hxs. now right.
Qed.

(** The [total] of a row is the number of tasks that have its priority. *)
Lemma priorityDistribution_total_counts_tasks (tasks : list Task)
  (row : PriorityRow.t) :
  In row (priorityDistribution tasks) ->
  PriorityRow.total row
  = Mongo.size (filter (fun t => String.eqb (priority t) (PriorityRow._id row))
                       tasks).
Proof.
  unfold priorityDistribution, priorityRows. intros Hin.
  apply in_map_iff in Hin. destruct Hin as ([p g] & <- & Hg).
  cbn [PriorityRow.total PriorityRow._id fst snd].
  destruct (group_by_grouped _ _ _ String.eqb_spec Cell.priority
              (priorityCells tasks)) as (_ & Hmem & _ & _).
  destruct (Hmem _ _ Hg) as [-> _].
  destruct (group_by_grouped _ _ _ pair_eqb_spec
              (fun t => (priority t, status t)) tasks)
    as (_ & Hmem2 & _ & Hperm).
  unfold Mongo.members, priorityCells.
  rewrite filter_map_swap, map_map. cbn [Cell.priority Cell.count].
  rewrite sumZ_sizes, groups_of_priority.
  - unfold Mongo.size. now rewrite (filter_length_perm _ _ _ Hperm).
  - intros k xs x Hk Hx. destruct (Hmem2 _ _ Hk) as [Heq _].
    rewrite Heq in Hx. apply filter_In in Hx as [_ Hx].
    now destruct (pair_eqb_spec (priority x, status x) k).
Qed.

(** ** Performance insights *)

Lemma fold_left_counts (stats : list TaskStat.t) (acc : Z) :
  fold_left (fun acc s => (acc + TaskStat.count s)%Z) stats acc
  = (acc + Mongo.sumZ (map TaskStat.count stats))%Z.
Proof.
  revert acc. induction stats as [|s r IH]; intros acc; simpl; [lia|].
  rewrite IH. unfold Mongo.sumZ. lia.
Qed.

Lemma taskStats_total (tasks : list Task) :
  Mongo.sumZ (map TaskStat.count (taskStats tasks)) = Mongo.size tasks.
Proof.
  unfold taskStats. rewrite map_map. cbn [TaskStat.count].
  rewrite sumZ_sizes.
  destruct (group_by_grouped _ _ _ String.eqb_spec status tasks)
    as (_ & _ & _ & Hperm).
  unfold Mongo.size. now rewrite (Permutation_length Hperm).
Qed.

Lemma taskStats_count_pos (tasks : list Task) (s : TaskStat.t) :
  In s (taskStats tasks) -> (0 < TaskStat.count s)%Z.
Proof.
  unfold taskStats. intros Hin. apply in_map_iff in Hin.
  destruct Hin as ([k xs] & <- & Hg). cbn [TaskStat.count snd].
  destruct (group_by_grouped _ _ _ String.eqb_spec status tasks)
    as (_ & Hmem & _ & _).
  destruct (Hmem _ _ Hg) as [_ Hne]. rewrite count_size. unfold Mongo.size.
  destruct xs; [now elim Hne|simpl; lia].
Qed.

Lemma sumZ_member_le (l : list Z) (x : Z) :
  (forall y, In y l -> 0 <= y)%Z -> In x l -> (x <= Mongo.sumZ l)%Z.
Proof.
  induction l as [|y r IH]; intros Hpos Hin; [destruct Hin|].
  assert (0 <= Mongo.sumZ r)%Z.
  { clear IH Hin. induction r as [|z r IH]; simpl; [lia|].
    assert (0 <= z)%Z by (apply Hpos; right; now left).
    assert (0 <= Mongo.sumZ r)%Z; [|unfold Mongo.sumZ in *; lia].
    apply IH. intros w [Hw|Hw]; apply Hpos; [now left|right; now right]. }
  assert (0 <= y)%Z by (apply Hpos; now left).
  destruct Hin as [->|Hin]; simpl; unfold Mongo.sumZ in *.
  - lia.
  - assert (x <= fold_right Z.add 0 r)%Z; [|lia].
    apply IH; [|assumption]. intros w Hw. apply Hpos. now right.
Qed.

(** The code at the input on which claim C1 fails: with no task there is no
    status bucket, the rate is 0 / 0 * 100 and [toFixed] spells it NaN. *)
Theorem completionRate_empty_collection :
  completionRate (taskStats []) = "NaN"%string.
Proof. reflexivity. Qed.

(** The guard that [completionRate] lacks is there for its sibling. *)
Lemma avgTasksPerDay_empty : avgTasksPerDay [] = Js.Number (Js.ofZ 0).
Proof. reflexivity. Qed.

(** Off the empty collection the rate is the rendering of a percentage. *)
Lemma completionRate_nonempty (tasks : list Task) :
  tasks <> [] ->
  exists q, completionRate (taskStats tasks) = Js.fixed1 q /\ 0 <= q <= 100.
Proof.
  intros Hne. unfold completionRate.
  rewrite fold_left_counts, taskStats_total. simpl (0 + _)%Z.
  set (c := countOrZero _).
  assert (Hc : (0 <= c <= Mongo.size tasks)%Z).
  { subst c. destruct (find _ (taskStats tasks)) as [s|] eqn:Hf; simpl.
    - apply find_some in Hf as [Hin _].
      pose proof (taskStats_count_pos tasks s Hin) as Hpos.
      destruct (TaskStat.count s =? 0)%Z; [split; [lia|apply size_nonneg]|].
      split; [lia|]. rewrite <- taskStats_total.
      apply sumZ_member_le; [|now apply in_map].
      intros y Hy. apply in_map_iff in Hy as (s' & <- & Hs').
      pose proof (taskStats_count_pos tasks s' Hs'). lia.
    - split; [lia|apply size_nonneg]. }
  assert (Hn : (0 < Mongo.size tasks)%Z).
  { unfold Mongo.size. destruct tasks; [now elim Hne|simpl; lia]. }
  exists (inject_Z c / inject_Z (Mongo.size tasks) * inject_Z 100).
  assert (Hq : 0 <= inject_Z c / inject_Z (Mongo.size tasks) * inject_Z 100 <= 100).
  { assert (H0 : 0 < inject_Z (Mongo.size tasks))
      by (rewrite <- (Zlt_Qlt 0); exact Hn).
    assert (Hr : 0 <= inject_Z c / inject_Z (Mongo.size tasks) <= 1).
    { split.
      - apply Qle_shift_div_l; [exact H0|]. rewrite Qmult_0_l.
        rewrite <- (Zle_Qle 0). lia.
      - apply Qle_shift_div_r; [exact H0|]. rewrite Qmult_1_l.
        rewrite <- Zle_Qle. lia. }
    destruct Hr as [Hr0 Hr1]. split.
    - apply Qmult_le_0_compat; [exact Hr0|discriminate].
    - setoid_replace 100 with (1 * inject_Z 100) at 2 by reflexivity.
      apply Qmult_le_compat_r; [exact Hr1|discriminate]. }
  split; [|exact Hq].
  unfold Js.ofZ, Js.div.
  destruct (Qeq_bool (inject_Z (Mongo.size tasks)) 0) eqn:Hz.
  - apply Qeq_bool_eq in Hz. exfalso.
    assert (0 < inject_Z (Mongo.size tasks)) by (rewrite <- (Zlt_Qlt 0); exact Hn).
    rewrite Hz in H. now apply Qlt_irrefl in H.
  - unfold Js.mul, Js.toFixed1.
    destruct (Qle_bool 0 _) eqn:Hle; [reflexivity|].
    destruct Hq as [Hq _]. apply Qle_bool_iff in Hq.
    rewrite Hq in Hle. discriminate.
Qed.

(** The scenario of the specification: one task to do and two completed. *)
Example completionRate_two_of_three :
  completionRate (taskStats [Sample.task "a" "todo" "low";
                             Sample.task "b" "completed" "low";
                             Sample.task "c" "completed" "high"])
  = "66.7"%string.
Proof. vm_compute. reflexivity. Qed.

(** [timeAccuracy] never throws: the bucket found by the test answers the
    two later searches as well. *)
Lemma timeAccuracy_returns (stats : list TaskStat.t) :
  exists v, timeAccuracy stats = Ok v.
Proof.
  unfold timeAccuracy.
  destruct (find (fun s => hasEstimated s && hasActual s) stats) as [s|] eqn:Hf;
    [|eexists; reflexivity].
  apply find_some in Hf as [Hin Hboth]. apply andb_prop in Hboth as [He Ha].
  destruct (find hasActual stats) as [a|] eqn:Hfa;
    [|now rewrite (find_none _ _ Hfa s Hin) in Ha].
  destruct (find hasEstimated stats) as [e|] eqn:Hfe;
    [|now rewrite (find_none _ _ Hfe s Hin) in He].
  simpl. eexists; reflexivity.
Qed.

(** The code at an input on which claim C2 fails.  The estimates sum to 12
    hours and the actual hours to 6, an accuracy of 50.0.  The code divides
    the actual hours of the first bucket that has some by the estimate of
    the first bucket that has some: 6 / 4 when the todo bucket comes first,
    6 / 8 when the completed bucket does. *)
Theorem timeAccuracy_first_buckets :
  timeAccuracy (taskStats Sample.tracked) = Ok (Js.Str "150.0")
  /\ timeAccuracy (taskStats (rev Sample.tracked)) = Ok (Js.Str "75.0")
  /\ timeAccuracy_spec (taskStats Sample.tracked) = Js.Str "50.0"
  /\ timeAccuracy_spec (taskStats (rev Sample.tracked)) = Js.Str "50.0".
Proof. repeat split; vm_compute; reflexivity. Qed.

(** ** Overdue analysis *)

Lemma filter_filter_andb {A} (f g : A -> bool) (l : list A) :
  filter g (filter f l) = filter (fun x => f x && g x) l.
Proof.
  induction l as [|x r IH]; simpl; [reflexivity|].
  destruct (f x); simpl; [destruct (g x)|]; now rewrite IH.
Qed.

(** The division by the number of milliseconds in a day never fails. *)
Lemma overdueDays_ok (now : Z) (t : Task) :
  overdueDays now t = Ok (overdueAge now t).
Proof.
  unfold overdueDays, overdueAge. destruct (dueDate t); reflexivity.
Qed.

Lemma overdueGroup_ok (now : Z) (g : string * list Task) :
  overdueGroup now g
  = Ok {| Overdue._id := fst g;
          Overdue.count := Mongo.count (snd g);
          Overdue.avgOverdueDays := Mongo.avg (map (overdueAge now) (snd g)) |}.
Proof.
  unfold overdueGroup.
  rewrite (mapM_ok _ (overdueAge now)); [reflexivity|].
  intros t _. apply overdueDays_ok.
Qed.

(** The pipeline returns one row per priority among the tasks that pass the
    filter at [nowMatch], with their ages taken at [nowGroup]. *)
Lemma overduePipeline_rows (nowMatch nowGroup : Z) (tasks : list Task) :
  exists rows,
    overduePipeline nowMatch nowGroup tasks = Ok rows
    /\ forall row, In row rows ->
         let late := filter (fun t => overdueMatch nowMatch t
                                      && String.eqb (priority t) (Overdue._id row))
                            tasks in
         late <> []
         /\ Overdue.count row = Mongo.size late
         /\ Overdue.avgOverdueDays row = Mongo.avg (map (overdueAge nowGroup) late).
Proof.
  unfold overduePipeline. eexists. split.
  - apply mapM_ok. intros g _. apply overdueGroup_ok.
  - intros row Hin. apply in_map_iff in Hin. destruct Hin as ([p g] & <- & Hg).
    destruct (group_by_grouped _ _ _ String.eqb_spec priority
                (filter (overdueMatch nowMatch) tasks)) as (_ & Hmem & _ & _).
    destruct (Hmem _ _ Hg) as [Heq Hne].
    unfold Mongo.members in Heq. rewrite filter_filter_andb in Heq.
    cbn [Overdue._id Overdue.count Overdue.avgOverdueDays fst snd].
    rewrite <- Heq, count_size. repeat split. exact Hne.
Qed.

(** C3, amended. The overdue analysis reads the clock twice before the
    pipeline runs: the filter [dueDate < now] uses the first reading and the
    average overdue age [(now - dueDate)] in days the second.  Each row
    counts, for one priority, the tasks overdue at the first reading, and
    averages their ages at the second reading. *)
Theorem overdueAnalysis_two_readings (tasks : list Task) (c : Clock.t) :
  let first := Clock.reading c (Clock.reads c) in
  let second := Clock.reading c (S (Clock.reads c)) in
  exists rows,
    overdueAnalysis tasks c
    = (Ok rows, {| Clock.reading := Clock.reading c;
                   Clock.reads := S (S (Clock.reads c)) |})
    /\ forall row, In row rows ->
         let late := filter (fun t => overdueMatch first t
                                      && String.eqb (priority t) (Overdue._id row))
                            tasks in
         late <> []
         /\ Overdue.count row = Mongo.size late
         /\ Overdue.avgOverdueDays row = Mongo.avg (map (overdueAge second) late).
Proof.
  intros first second.
  destruct (overduePipeline_rows first second tasks) as (rows & Hrows & Hspec).
  exists rows. split; [|exact Hspec].
  unfold overdueAnalysis, Clock.bind, Clock.newDate, Clock.ret.
  cbn [Clock.reading Clock.reads]. fold first second. now rewrite Hrows.
Qed.

Lemma overdueAnalysis_two_readings_witness :
  exists rows,
    overdueAnalysis Sample.late Sample.ticking
    = (Ok rows, {| Clock.reading := Clock.reading Sample.ticking;
                   Clock.reads := 2 |})
    /\ forall row, In row rows ->
         let late := filter (fun t => overdueMatch 1000000000000 t
                                      && String.eqb (priority t) (Overdue._id row))
                            Sample.late in
         late <> []
         /\ Overdue.count row = Mongo.size late
         /\ Overdue.avgOverdueDays row
            = Mongo.avg (map (overdueAge 1000000000001) late).
Proof. exact (overdueAnalysis_two_readings Sample.late Sample.ticking). Defined.

(** When the clock does not move between the two readings, the analysis is
    the one of a single captured date. *)
Lemma overdueAnalysis_still_clock (tasks : list Task) (c : Clock.t) :
  Clock.reading c (S (Clock.reads c)) = Clock.reading c (Clock.reads c) ->
  fst (overdueAnalysis tasks c)
  = overduePipeline (Clock.reading c (Clock.reads c))
                    (Clock.reading c (Clock.reads c)) tasks.
Proof.
  intros Hstill. unfold overdueAnalysis, Clock.bind, Clock.newDate, Clock.ret.
  cbn [Clock.reading Clock.reads fst]. now rewrite Hstill.
Qed.

(** C3 as stated fails.  The clock advances by a millisecond between the
    two readings; one task is due a day before the first reading, another at
    the first reading.  The filter, at the first reading, keeps the first
    task only; its age, at the second reading, is 86400001 / 86400000 days.
    No single date gives this result: a date that leaves the second task out
    of the filter is at most the first reading, and gives an age of at most
    one day. *)
Lemma overdueAnalysis_single_now_counterexample :
  fst (overdueAnalysis Sample.late Sample.ticking)
  = Ok [ {| Overdue._id := "high"; Overdue.count := 1;
            Overdue.avgOverdueDays := Some (86400001 # 86400000) |} ]
  /\ ~ exists now,
        overduePipeline now now Sample.late
        = fst (overdueAnalysis Sample.late Sample.ticking).
Proof.
  split; [vm_compute; reflexivity|].
  intros [now H].
  replace (fst (overdueAnalysis Sample.late Sample.ticking))
    with (Ok [ {| Overdue._id := "high"%string; Overdue.count := 1;
                  Overdue.avgOverdueDays := Some (86400001 # 86400000) |} ])
    in H by (vm_compute; reflexivity).
  unfold overduePipeline, Sample.late in H. cbn [filter] in H.
  unfold overdueMatch in H. cbn [dueDate status existsb String.eqb Ascii.eqb Bool.eqb negb orb andb] in H.
  destruct (Z.ltb_spec (1000000000000 - 86400000) now) as [Ha|Ha];
    destruct (Z.ltb_spec 1000000000000 now) as [Hb|Hb];
    cbn in H.
  - discriminate H.
  - injection H as Hq.
    assert (Heq : (inject_Z now - inject_Z 999913600000) / inject_Z 86400000
                  == 86400001 # 86400000).
    { transitivity (((inject_Z now - inject_Z 999913600000) / inject_Z 86400000 + 0)
                    / inject_Z 1).
      - field.
      - rewrite <- Hq. apply Qeq_refl. }
    apply (Qmult_inj_r _ _ (inject_Z 86400000)) in Heq; [|discriminate].
    unfold Qdiv in Heq. rewrite <- Qmult_assoc, (Qmult_comm (/ _)), Qmult_inv_r, Qmult_1_r in Heq
      by discriminate.
    unfold Qeq in Heq. simpl in Heq. lia.
  - lia.
  - discriminate H.
Qed.

(** ** [$sort] *)

Section SortFacts.
Variable A : Type.
Variable leb : A -> A -> bool.

Lemma insert_perm (x : A) (l : list A) :
  Permutation (Mongo.insert leb x l) (x :: l).
Proof.
  induction l as [|y r IH]; simpl; [reflexivity|].
  destruct (leb x y); [reflexivity|].
  rewrite IH. apply perm_swap.
Qed.

Lemma sort_perm (l : list A) : Permutation (Mongo.sort leb l) l.
Proof.
  induction l as [|x r IH]; simpl; [reflexivity|].
  rewrite insert_perm. now constructor.
Qed.

Hypothesis leb_total : forall a b, leb a b = false -> leb b a = true.
Hypothesis leb_trans : forall a b c, leb a b = true -> leb b c = true -> leb a c = true.

Lemma insert_sorted (x : A) (l : list A) :
  StronglySorted (fun a b => leb a b = true) l ->
  StronglySorted (fun a b => leb a b = true) (Mongo.insert leb x l).
Proof.
  induction l as [|y r IH]; simpl; intros Hs.
  - constructor; constructor.
  - inversion Hs as [|? ? Hr Hall]; subst.
    destruct (leb x y) eqn:Hxy.
    + constructor; [assumption|]. constructor; [assumption|].
      rewrite Forall_forall in *. intros z Hz. eapply leb_trans; eauto.
    + constructor; [now apply IH|].
      rewrite Forall_forall in *. intros z Hz.
      apply (Permutation_in _ (insert_perm x r)) in Hz.
      destruct Hz as [<-|Hz]; [now apply leb_total|now apply Hall].
Qed.

Lemma sort_sorted (l : list A) :
  StronglySorted (fun a b => leb a b = true) (Mongo.sort leb l).
Proof.
  induction l as [|x r IH]; simpl; [constructor|now apply insert_sorted].
Qed.

End SortFacts.

(** ** Project progress *)

Lemma progressPercentage_ok (joined : list Task) :
  progressPercentage joined
  = Ok (Some (progressPercentage_spec (Mongo.size (completedOf joined))
                                      (Mongo.size joined))).
Proof.
  unfold progressPercentage, progressPercentage_spec.
  destruct (Z.ltb_spec 0 (Mongo.size joined)) as [Hpos|_]; [|reflexivity].
  unfold Mongo.divide, Mongo.ofZ.
  destruct (Qeq_bool (inject_Z (Mongo.size joined)) 0) eqn:Hz; [|reflexivity].
  apply Qeq_bool_eq in Hz. unfold Qeq in Hz. simpl in Hz. lia.
Qed.

Lemma progressPercentage_spec_range (completedTasks totalTasks : Z) :
  (0 <= completedTasks <= totalTasks)%Z ->
  0 <= progressPercentage_spec completedTasks totalTasks <= 100.
Proof.
  intros [H0 H1]. unfold progressPercentage_spec.
  destruct (Z.ltb_spec 0 totalTasks) as [Hpos|_]; [|split; discriminate].
  assert (Ht : 0 < inject_Z totalTasks) by (rewrite <- (Zlt_Qlt 0); exact Hpos).
  split.
  - apply Qmult_le_0_compat; [|discriminate].
    apply Qle_shift_div_l; [exact Ht|]. rewrite Qmult_0_l.
    now rewrite <- (Zle_Qle 0).
  - setoid_replace 100 with (1 * 100) at 2 by reflexivity.
    apply Qmult_le_compat_r; [|discriminate].
    apply Qle_shift_div_r; [exact Ht|]. rewrite Qmult_1_l.
    now rewrite <- Zle_Qle.
Qed.

Lemma progressRow_ok (tasks : list Task) (p : Project.t) :
  progressRow tasks p
  = Ok {| Progress._id := Project._id p;
          Progress.name := Project.name p;
          Progress.status := Project.status p;
          Progress.priority := Project.priority p;
          Progress.dueDate := Project.dueDate p;
          Progress.totalTasks := Mongo.size (tasksOf p tasks);
          Progress.completedTasks := Mongo.size (completedOf (tasksOf p tasks));
          Progress.progressPercentage :=
            Some (progressPercentage_spec
                    (Mongo.size (completedOf (tasksOf p tasks)))
                    (Mongo.size (tasksOf p tasks))) |}.
Proof. unfold progressRow. now rewrite progressPercentage_ok. Qed.

(** C7. The project progress always returns; it has one row per project,
    also for a project without tasks; in every row [totalTasks] counts the
    tasks that reference the project, [completedTasks] those of them that
    are completed, and [progressPercentage] is completed / total * 100 when
    there is a task and 0 when there is none, hence between 0 and 100. *)
Theorem projectProgress_percentage (projects : list Project.t) (tasks : list Task) :
  exists rows,
    projectProgress projects tasks = Ok rows
    /\ Permutation (map Progress._id rows) (map Project._id projects)
    /\ forall row, In row rows ->
         (exists p, In p projects
            /\ Progress._id row = Project._id p
            /\ Progress.totalTasks row = Mongo.size (tasksOf p tasks)
            /\ Progress.completedTasks row
               = Mongo.size (completedOf (tasksOf p tasks)))
         /\ exists pct,
              Progress.progressPercentage row = Some pct
              /\ ((0 < Progress.totalTasks row)%Z ->
                  pct == inject_Z (Progress.completedTasks row)
                         / inject_Z (Progress.totalTasks row) * 100)
              /\ (Progress.totalTasks row = 0%Z -> pct == 0)
              /\ 0 <= pct <= 100.
Proof.
  unfold projectProgress.
  rewrite (mapM_ok _ _ _ (fun p _ => progressRow_ok tasks p)).
  cbn [bind]. eexists. split; [reflexivity|]. split.
  - rewrite (Permutation_map Progress._id (sort_perm _ _ _)).
    rewrite map_map. reflexivity.
  - intros row Hin.
    apply (Permutation_in _ (sort_perm _ _ _)) in Hin.
    apply in_map_iff in Hin. destruct Hin as (p & <- & Hp).
    cbn [Progress._id Progress.totalTasks Progress.completedTasks
         Progress.progressPercentage].
    split; [exists p; repeat split; assumption|].
    eexists. split; [reflexivity|]. repeat split.
    + intros Hpos. unfold progressPercentage_spec.
      apply Z.ltb_lt in Hpos. now rewrite Hpos.
    + intros Hz. unfold progressPercentage_spec. now rewrite Hz.
    + apply progressPercentage_spec_range.
      split; [apply size_nonneg|apply size_filter_le].
    + apply progressPercentage_spec_range.
      split; [apply size_nonneg|apply size_filter_le].
Qed.

Lemma projectProgress_percentage_witness :
  exists rows,
    projectProgress Sample.projects Sample.backlog = Ok rows
    /\ Permutation (map Progress._id rows) ["p1"; "p2"]%string
    /\ forall row, In row rows ->
         (exists p, In p Sample.projects
            /\ Progress._id row = Project._id p
            /\ Progress.totalTasks row = Mongo.size (tasksOf p Sample.backlog)
            /\ Progress.completedTasks row
               = Mongo.size (completedOf (tasksOf p Sample.backlog)))
         /\ exists pct,
              Progress.progressPercentage row = Some pct
              /\ ((0 < Progress.totalTasks row)%Z ->
                  pct == inject_Z (Progress.completedTasks row)
                         / inject_Z (Progress.totalTasks row) * 100)
              /\ (Progress.totalTasks row = 0%Z -> pct == 0)
              /\ 0 <= pct <= 100.
Proof. exact (projectProgress_percentage Sample.projects Sample.backlog). Defined.

(** The scenario of the specification: a project without tasks. *)
Example projectProgress_no_tasks :
  projectProgress [ {| Project._id := "p2"; Project.name := "Beta";
                       Project.status := "planning"; Project.priority := "low";
                       Project.dueDate := None |} ] Sample.backlog
  = Ok [ {| Progress._id := "p2"; Progress.name := "Beta";
            Progress.status := "planning"; Progress.priority := "low";
            Progress.dueDate := None; Progress.totalTasks := 0;
            Progress.completedTasks := 0;
            Progress.progressPercentage := Some 0 |} ].
Proof. reflexivity. Qed.

(** ** Recent activity *)

Lemma firstn_sorted {A} (R : A -> A -> Prop) (n : nat) (l : list A) :
  StronglySorted R l -> StronglySorted R (firstn n l).
Proof.
  revert l. induction n as [|n IH]; intros l Hs; [constructor|].
  destruct l as [|x r]; [constructor|]. simpl.
  inversion Hs as [|? ? Hr Hall]; subst.
  constructor; [now apply IH|].
  rewrite Forall_forall in *. intros y Hy. apply Hall.
  rewrite <- (firstn_skipn n r). apply in_or_app. now left.
Qed.

Lemma map_sorted {A B} (f : A -> B) (R : B -> B -> Prop) (l : list A) :
  StronglySorted (fun a b => R (f a) (f b)) l -> StronglySorted R (map f l).
Proof.
  induction 1 as [|x r Hr IH Hall]; simpl; constructor; [assumption|].
  rewrite Forall_forall in *. intros y Hy.
  apply in_map_iff in Hy as (z & <- & Hz). now apply Hall.
Qed.

Lemma sorted_weaken {A} (R S : A -> A -> Prop) (l : list A) :
  (forall a b, R a b -> S a b) -> StronglySorted R l -> StronglySorted S l.
Proof.
  intros Himp. induction 1 as [|x r Hr IH Hall]; constructor; [assumption|].
  rewrite Forall_forall in *. intros y Hy. now apply Himp, Hall.
Qed.

(** [$arrayElemAt] at 0 of the names of the joined projects: the name of
    the first project with the identifier, if there is one. *)
Lemma first_name (f : Project.t -> bool) (projects : list Project.t) :
  nth_error (map Project.name (filter f projects)) 0
  = option_map Project.name (find f projects).
Proof.
  induction projects as [|p r IH]; simpl; [reflexivity|].
  destruct (f p); [reflexivity|exact IH].
Qed.

(** C9, amended. The recent activity feed has at most 20 entries (20 when
    the look-back window holds that many tasks, all of them otherwise); every
    entry is a task updated within the window; the entries are sorted by
    [updatedAt] descending; the [projectName] of an entry is the name of the
    project the task references, and the field is absent when the task
    references no project or a project that does not exist. *)
Theorem recentActivity_feed (startDate : Z) (projects : list Project.t)
  (tasks : list Task) :
  let feed := recentActivity startDate projects tasks in
  (List.length feed <= 20)%nat
  /\ List.length feed
     = Nat.min 20 (List.length (filter (fun t => (startDate <=? updatedAt t)%Z) tasks))
  /\ StronglySorted
       (fun a b => (Activity.updatedAt b <= Activity.updatedAt a)%Z) feed
  /\ forall row, In row feed ->
       exists t, In t tasks
         /\ (startDate <= updatedAt t)%Z
         /\ Activity._id row = _id t
         /\ Activity.updatedAt row = updatedAt t
         /\ Activity.projectName row
            = match project t with
              | Some i =>
                  option_map Project.name
                    (find (fun p => String.eqb (Project._id p) i) projects)
              | None => None
              end.
Proof.
  intros feed. subst feed. unfold recentActivity.
  set (window := filter _ tasks).
  set (newest := fun a b : Task => (updatedAt b <=? updatedAt a)%Z).
  assert (Hlen : List.length (map (activityRow projects)
                                  (firstn 20 (Mongo.sort newest window)))
                 = Nat.min 20 (List.length window)).
  { rewrite length_map, length_firstn.
    now rewrite (Permutation_length (sort_perm _ newest window)). }
  split; [rewrite Hlen; apply Nat.le_min_l|].
  split; [exact Hlen|]. split.
  - apply map_sorted, firstn_sorted.
    apply (sorted_weaken (fun a b => newest a b = true)).
    + unfold newest. intros a b Hab. cbn [activityRow Activity.updatedAt].
      now apply Z.leb_le.
    + apply sort_sorted; unfold newest.
      * intros a b Hab. apply Z.leb_gt in Hab. apply Z.leb_le. lia.
      * intros a b c Hab Hbc. apply Z.leb_le in Hab, Hbc. apply Z.leb_le. lia.
  - intros row Hin. apply in_map_iff in Hin. destruct Hin as (t & <- & Ht).
    assert (Hw : In t window).
    { apply (Permutation_in _ (sort_perm _ newest window)).
      rewrite <- (firstn_skipn 20 (Mongo.sort newest window)).
      apply in_or_app. now left. }
    apply filter_In in Hw as [Htask Hrecent].
    exists t. cbn [activityRow Activity._id Activity.updatedAt Activity.projectName].
    repeat split; try assumption; [now apply Z.leb_le|].
    unfold projectInfo. destruct (project t); [apply first_name|reflexivity].
Qed.

Lemma recentActivity_feed_witness :
  let feed := recentActivity 15 Sample.projects Sample.backlog in
  (List.length feed <= 20)%nat
  /\ List.length feed = 3%nat
  /\ StronglySorted
       (fun a b => (Activity.updatedAt b <= Activity.updatedAt a)%Z) feed
  /\ forall row, In row feed ->
       exists t, In t Sample.backlog
         /\ (15 <= updatedAt t)%Z
         /\ Activity._id row = _id t
         /\ Activity.updatedAt row = updatedAt t
         /\ Activity.projectName row
            = match project t with
              | Some i =>
                  option_map Project.name
                    (find (fun p => String.eqb (Project._id p) i) Sample.projects)
              | None => None
              end.
Proof. exact (recentActivity_feed 15 Sample.projects Sample.backlog). Defined.

(** C9 as stated fails: the entry of a task whose project is gone, and the
    entry of a task without a project, carry no [projectName] at all, where
    the claim has the empty string. *)
Lemma recentActivity_projectName_counterexample :
  map Activity.projectName (recentActivity 0 Sample.projects Sample.backlog)
  = [Some "Alpha"; Some "Alpha"; None; None]%string
  /\ ~ (forall row,
          In row (recentActivity 0 Sample.projects Sample.backlog) ->
          exists name, Activity.projectName row = Some name).
Proof.
  split; [reflexivity|].
  intros H.
  destruct (H (activityRow Sample.projects (Sample.linked "d" "todo" None 10)))
    as [name Hname].
  - vm_compute. auto.
  - discriminate Hname.
Qed.

(** ** convertToCSV *)

Lemma singleLine_app (a b : string) :
  Csv.singleLine (a ++ b) = Csv.singleLine a && Csv.singleLine b.
Proof.
  induction a as [|c r IH]; simpl; [reflexivity|].
  rewrite IH. now rewrite andb_assoc.
Qed.

Lemma singleLine_concat (sep : string) (l : list string) :
  Csv.singleLine sep = true ->
  (forall s, In s l -> Csv.singleLine s = true) ->
  Csv.singleLine (String.concat sep l) = true.
Proof.
  intros Hsep. induction l as [|x r IH]; intros Hall; [reflexivity|].
  destruct r as [|y r']; simpl.
  - apply Hall. now left.
  - rewrite !singleLine_app, Hsep, (Hall x (or_introl eq_refl)). simpl.
    apply IH. intros s Hs. apply Hall. now right.
Qed.

Lemma lookup_in (item : Csv.record) (header : string) :
  Csv.lookup item header = Csv.Nullish
  \/ exists k, In (k, Csv.lookup item header) item.
Proof.
  unfold Csv.lookup.
  destruct (find _ item) as [[k c]|] eqn:Hf; [right|now left].
  apply find_some in Hf as [Hin _]. now exists k.
Qed.

(** An object read at its own keys, in key order, gives its values. *)
Lemma lookup_own_keys (item : Csv.record) :
  NoDup (map fst item) ->
  map (Csv.lookup item) (map fst item) = map snd item.
Proof.
  induction item as [|[k c] r IH]; intros Hnd; [reflexivity|].
  inversion Hnd as [|? ? Hnotin Hr]; subst.
  cbn [map fst snd]. f_equal.
  - unfold Csv.lookup. simpl. now rewrite String.eqb_refl.
  - rewrite <- (IH Hr). apply map_ext_in. intros h Hh.
    unfold Csv.lookup. simpl.
    destruct (String.eqb_spec k h) as [->|_]; [now elim Hnotin|reflexivity].
Qed.

(** C10, amended. For an empty result set the output is the empty string.
    For a non-empty one it is the header, made of the keys of the first
    record in key order, followed by the rows, each joined to what precedes
    by the two characters backslash and n; the row of a record read at its
    own keys lists its values in key order; a textual value is wrapped in
    double quotes and otherwise copied as it is; the separator is not a
    newline, so the output is a single physical line whenever no key and no
    value holds a newline character. *)
Theorem convertToCSV_rendering :
  Csv.convertToCSV [] = ""%string
  /\ (forall first rest,
        let headers := map fst first in
        let row := fun item =>
          String.concat "," (map (fun h => Csv.field (Csv.lookup item h)) headers) in
        Csv.convertToCSV (first :: rest)
        = (String.concat "," headers ++ Csv.rowSeparator
           ++ String.concat Csv.rowSeparator (map row (first :: rest)))%string)
  /\ (forall item,
        NoDup (map fst item) ->
        map (fun h => Csv.field (Csv.lookup item h)) (map fst item)
        = map (fun kv => Csv.field (snd kv)) item)
  /\ (forall s, Csv.field (Csv.Text s)
                = String "034"%char (s ++ String "034"%char EmptyString))
  /\ Csv.rowSeparator = String "092"%char (String "n"%char EmptyString)
  /\ (forall data,
        (forall item k c, In item data -> In (k, c) item ->
           Csv.singleLine k = true /\ Csv.singleLine (Csv.field c) = true) ->
        Csv.singleLine (Csv.convertToCSV data) = true).
Proof.
  split; [reflexivity|]. split; [reflexivity|]. split.
  { intros item Hnd.
    rewrite <- (map_map (Csv.lookup item) Csv.field), (lookup_own_keys item Hnd).
    now rewrite map_map. }
  split; [reflexivity|]. split; [reflexivity|].
  intros data Hclean. destruct data as [|first rest]; [reflexivity|].
  unfold Csv.convertToCSV.
  assert (Hkeys : forall h, In h (map fst first) -> Csv.singleLine h = true).
  { intros h Hh. apply in_map_iff in Hh as ([k c] & <- & Hkc).
    apply (Hclean first k c); [now left|assumption]. }
  apply singleLine_concat; [reflexivity|].
  intros s [<-|Hs].
  - apply singleLine_concat; [reflexivity|exact Hkeys].
  - apply in_map_iff in Hs as (item & <- & Hitem).
    apply singleLine_concat; [reflexivity|].
    intros s Hs. apply in_map_iff in Hs as (h & <- & _).
    destruct (lookup_in item h) as [->|[k Hk]]; [reflexivity|].
    now apply (Hclean item k _ Hitem Hk).
Qed.

Lemma convertToCSV_rendering_witness :
  map (fun h => Csv.field (Csv.lookup (hd [] Sample.report) h))
      (map fst (hd [] Sample.report))
  = map (fun kv => Csv.field (snd kv)) (hd [] Sample.report)
  /\ Csv.singleLine (Csv.convertToCSV Sample.report) = true.
Proof.
  split.
  - apply (proj1 (proj2 (proj2 convertToCSV_rendering))).
    simpl. repeat constructor; simpl; intuition discriminate.
  - apply (proj2 (proj2 (proj2 (proj2 (proj2 convertToCSV_rendering))))).
    intros item k c Hitem Hkc. simpl in Hitem.
    destruct Hitem as [<-|[<-|[]]]; simpl in Hkc;
      destruct Hkc as [Heq|[Heq|[]]]; inversion Heq; subst; split; reflexivity.
Defined.

(** The rendering of two records; the comma inside a value is not escaped. *)
Example convertToCSV_report :
  Csv.convertToCSV Sample.report
  = (String.concat Csv.rowSeparator
       [ "title,variance";
         Csv.dquote ++ "Draft docs" ++ Csv.dquote ++ ",2";
         Csv.dquote ++ "Fix, test" ++ Csv.dquote ++ "," ])%string.
Proof. reflexivity. Qed.

(** C10 as stated fails: a title that holds a line break is copied as it
    is, and the output spans two physical lines. *)
Lemma convertToCSV_single_line_counterexample :
  Sample.twoLineTitle <> []
  /\ Csv.singleLine (Csv.convertToCSV Sample.twoLineTitle) = false.
Proof. split; [discriminate|reflexivity]. Qed.

(** ** Time-tracking report *)

Lemma mapM_throw {A B} (f : A -> result B) (l : list A) (x : A) :
  In x l -> (exists e, f x = Throw e) -> exists e, mapM f l = Throw e.
Proof.
  induction l as [|y r IH]; intros Hin Hx; [destruct Hin|]. simpl.
  destruct (f y) as [b|e] eqn:Hy; [|now exists e].
  destruct Hin as [->|Hin].
  - destruct Hx as [e He]. congruence.
  - destruct (IH Hin Hx) as [e He]. exists e. simpl. now rewrite He.
Qed.

(** The code at the inputs on which claim C6 fails: a task with both hours
    set and an estimate of 0 passes the filter, the division of its variance
    by its estimate fails, and the whole report is answered with status
    500. *)
Theorem timeTracking_zero_estimate (f : DateFilter.t) (tasks : list Task)
  (t : Task) (estimated actual : Q) :
  In t tasks ->
  estimatedHours t = Some estimated ->
  estimated == 0 ->
  actualHours t = Some actual ->
  inDateFilter f (completedDate t) = true ->
  timeTrackingMatch f t = true
  /\ timeTrackingRow t = Throw DivideByZero
  /\ generateTimeTrackingReport f tasks = Fail 500 "Failed to generate report".
Proof.
  intros Hin He Hz Ha Hd.
  assert (Hm : timeTrackingMatch f t = true).
  { unfold timeTrackingMatch. now rewrite He, Ha, Hd. }
  assert (Hr : timeTrackingRow t = Throw DivideByZero).
  { unfold timeTrackingRow. rewrite He, Ha. unfold Mongo.subtract, Mongo.divide.
    apply Qeq_bool_iff in Hz. now rewrite Hz. }
  repeat split; [exact Hm|exact Hr|].
  unfold generateTimeTrackingReport, timeTracking.
  destruct (mapM_throw timeTrackingRow (filter (timeTrackingMatch f) tasks) t)
    as [e He'].
  - apply filter_In. now split.
  - now exists DivideByZero.
  - now rewrite He'.
Qed.

Lemma timeTracking_zero_estimate_witness :
  timeTrackingMatch Sample.anyDate (Sample.timed "z" "todo" (Some 0) (Some 5)) = true
  /\ timeTrackingRow (Sample.timed "z" "todo" (Some 0) (Some 5)) = Throw DivideByZero
  /\ generateTimeTrackingReport Sample.anyDate Sample.unestimated
     = Fail 500 "Failed to generate report".
Proof.
  apply (timeTracking_zero_estimate Sample.anyDate Sample.unestimated
           (Sample.timed "z" "todo" (Some 0) (Some 5)) 0 5).
  - simpl. auto.
  - reflexivity.
  - reflexivity.
  - reflexivity.
  - reflexivity.
Defined.

(** Off the zero estimate the row carries the variance and its percentage. *)
Lemma timeTrackingRow_nonzero (t : Task) (estimated actual : Q) :
  estimatedHours t = Some estimated ->
  actualHours t = Some actual ->
  ~ estimated == 0 ->
  exists row,
    timeTrackingRow t = Ok row
    /\ TimeRow.variance row = Some (actual - estimated)
    /\ TimeRow.variancePercent row
       = Some ((actual - estimated) / estimated * 100).
Proof.
  intros He Ha Hnz. unfold timeTrackingRow. rewrite He, Ha.
  unfold Mongo.subtract, Mongo.divide.
  destruct (Qeq_bool estimated 0) eqn:Hz;
    [now apply Qeq_bool_eq in Hz|].
  eexists. repeat split.
Qed.

(** ** Bulk mutation *)

Lemma untouched_store (taskIds : list string) (set : Task -> Task)
  (store : list Task) :
  (forall t, In t store -> Store.selected taskIds t = false) ->
  Store.updateMany taskIds set store
  = (store, {| WriteResult.modifiedCount := Js.Number (Js.ofZ 0);
               WriteResult.deletedCount := Js.Undefined |}).
Proof.
  intros Hnone. unfold Store.updateMany. f_equal.
  - rewrite <- (map_id store) at 2. apply map_ext_in.
    intros t Ht. now rewrite (Hnone t Ht).
  - f_equal. f_equal. f_equal.
    induction store as [|t r IH]; [reflexivity|]. simpl.
    rewrite (Hnone t (or_introl eq_refl)). simpl.
    apply IH. intros u Hu. apply Hnone. now right.
Qed.

(** The code at the inputs on which claim C4 fails: an update operation on
    identifiers none of which exists is answered with status 200, the store
    is left as it was, and [affectedCount] is [0 || undefined], that is
    undefined. *)
Theorem bulkUpdateTasks_none_exist (now : Z) (taskIds : list string)
  (u : Updates.t) (store : list Task) (op : string) :
  taskIds <> [] ->
  (forall t, In t store -> Store.selected taskIds t = false) ->
  (op = "update-status"%string /\ present (Updates.status u) <> None)
  \/ (op = "update-priority"%string /\ present (Updates.priority u) <> None)
  \/ (op = "assign-project"%string /\ present (Updates.project u) <> None) ->
  bulkUpdateTasks now (Sample.request taskIds (Some u) op) store
  = (Json 200 {| BulkData.operation := Some op;
                 BulkData.affectedCount := Js.Undefined;
                 BulkData.taskIds := taskIds |},
     store).
Proof.
  intros Hne Hnone Hop. unfold bulkUpdateTasks, Sample.request.
  cbn [Body.taskIds Body.updates Body.operation].
  destruct taskIds as [|i ids]; [now elim Hne|].
  destruct Hop as [[-> Hv]|[[-> Hv]|[-> Hv]]];
    unfold switchOperation; cbn [Body.operation Body.updates isOperation get bind];
    simpl String.eqb; cbv iota; unfold updateCase;
    match goal with
    | |- context [present ?v] => destruct (present v) as [x|]; [|now elim Hv]
    end;
    rewrite (untouched_store _ _ _ Hnone); reflexivity.
Qed.

Lemma bulkUpdateTasks_none_exist_witness :
  bulkUpdateTasks 1000 (Sample.request ["x"; "y"]%string (Some Sample.toCompleted)
                          "update-status") Sample.backlog
  = (Json 200 {| BulkData.operation := Some "update-status"%string;
                 BulkData.affectedCount := Js.Undefined;
                 BulkData.taskIds := ["x"; "y"]%string |},
     Sample.backlog).
Proof.
  apply (bulkUpdateTasks_none_exist 1000 ["x"; "y"]%string Sample.toCompleted
           Sample.backlog "update-status").
  - discriminate.
  - intros t Ht. simpl in Ht.
    destruct Ht as [<-|[<-|[<-|[<-|[]]]]]; reflexivity.
  - left. split; [reflexivity|discriminate].
Defined.

(** For [delete] the count is the one the claim has. *)
Lemma bulkUpdateTasks_delete_none_exist (now : Z) (taskIds : list string)
  (u : option Updates.t) (store : list Task) :
  taskIds <> [] ->
  (forall t, In t store -> Store.selected taskIds t = false) ->
  bulkUpdateTasks now (Sample.request taskIds u "delete") store
  = (Json 200 {| BulkData.operation := Some "delete"%string;
                 BulkData.affectedCount := Js.Number (Js.ofZ 0);
                 BulkData.taskIds := taskIds |},
     store).
Proof.
  intros Hne Hnone. unfold bulkUpdateTasks, Sample.request.
  cbn [Body.taskIds Body.updates Body.operation].
  destruct taskIds as [|i ids]; [now elim Hne|].
  unfold switchOperation; cbn [Body.operation isOperation bind].
  simpl String.eqb; cbv iota. unfold Store.deleteMany.
  assert (Hkeep : filter (fun t => negb (Store.selected (i :: ids) t)) store = store).
  { clear Hne. induction store as [|t r IH]; [reflexivity|]. cbn [filter].
    rewrite (Hnone t (or_introl eq_refl)). simpl. f_equal.
    apply IH. intros v Hv. apply Hnone. now right. }
  assert (Hgone : filter (Store.selected (i :: ids)) store = []).
  { clear Hne Hkeep. induction store as [|t r IH]; [reflexivity|]. cbn [filter].
    rewrite (Hnone t (or_introl eq_refl)).
    apply IH. intros v Hv. apply Hnone. now right. }
  rewrite Hkeep, Hgone. reflexivity.
Qed.

(** A write selects at most as many tasks as identifiers are given, when the
    tasks of the store have distinct identifiers. *)
Lemma selected_at_most_taskIds (taskIds : list string) (store : list Task) :
  NoDup (map _id store) ->
  (Mongo.size (filter (Store.selected taskIds) store) <= Mongo.size taskIds)%Z.
Proof.
  intros Hnd. unfold Mongo.size. apply inj_le.
  rewrite <- (length_map _id (filter _ store)).
  apply NoDup_incl_length.
  - clear -Hnd. induction store as [|t r IH]; simpl; [constructor|].
    inversion Hnd as [|? ? Hnotin Hr]; subst.
    destruct (Store.selected taskIds t); [|now apply IH].
    simpl. constructor; [|now apply IH].
    intros Hin. apply Hnotin. apply in_map_iff in Hin as (v & Hv & Hf).
    apply filter_In in Hf as [Hf _]. rewrite <- Hv. now apply in_map.
  - intros i Hi. apply in_map_iff in Hi as (t & <- & Ht).
    apply filter_In in Ht as [_ Hsel]. unfold Store.selected in Hsel.
    apply existsb_exists in Hsel as (j & Hj & Heq).
    apply String.eqb_eq in Heq. now rewrite Heq.
Qed.

(** The scenario of the specification: of three identifiers, one does not
    exist. *)
Example bulkUpdateTasks_two_of_three :
  fst (bulkUpdateTasks 1000
         (Sample.request ["a"; "x"; "b"]%string (Some Sample.toCompleted)
            "update-status") Sample.backlog)
  = Json 200 {| BulkData.operation := Some "update-status"%string;
                BulkData.affectedCount := Js.Number (Js.ofZ 2);
                BulkData.taskIds := ["a"; "x"; "b"]%string |}.
Proof. reflexivity. Qed.

(** The code at the inputs on which claim C5 fails: a request for an update
    operation that carries no [updates] object throws at the first read of a
    field of [updates]; the handler answers with status 500, and the store is
    left as it was. *)
Theorem bulkUpdateTasks_without_updates (now : Z) (taskIds : list string)
  (store : list Task) (op : string) :
  taskIds <> [] ->
  In op ["update-status"; "update-priority"; "assign-project"]%string ->
  switchOperation now taskIds (Sample.request taskIds None op) store
  = Throw TypeError
  /\ bulkUpdateTasks now (Sample.request taskIds None op) store
     = (Fail 500 "Failed to perform bulk update", store).
Proof.
  intros Hne Hop. unfold bulkUpdateTasks, Sample.request.
  cbn [Body.taskIds Body.updates Body.operation].
  destruct taskIds as [|i ids]; [now elim Hne|].
  destruct Hop as [<-|[<-|[<-|[]]]]; split; reflexivity.
Qed.

Lemma bulkUpdateTasks_without_updates_witness :
  switchOperation 1000 ["a"]%string
    (Sample.request ["a"]%string None "update-status") Sample.backlog
  = Throw TypeError
  /\ bulkUpdateTasks 1000 (Sample.request ["a"]%string None "update-status")
       Sample.backlog
     = (Fail 500 "Failed to perform bulk update", Sample.backlog).
Proof.
  apply (bulkUpdateTasks_without_updates 1000 ["a"]%string Sample.backlog
           "update-status").
  - discriminate.
  - simpl. auto.
Defined.

(** With an [updates] object that lacks the field of the operation, the
    request is refused with status 400 and nothing is written. *)
Lemma bulkUpdateTasks_missing_field (now : Z) (taskIds : list string)
  (u : Updates.t) (store : list Task) :
  taskIds <> [] ->
  (present (Updates.status u) = None ->
   bulkUpdateTasks now (Sample.request taskIds (Some u) "update-status") store
   = (Fail 400 "Status is required for status update", store))
  /\ (present (Updates.priority u) = None ->
      bulkUpdateTasks now (Sample.request taskIds (Some u) "update-priority") store
      = (Fail 400 "Priority is required for priority update", store))
  /\ (present (Updates.project u) = None ->
      bulkUpdateTasks now (Sample.request taskIds (Some u) "assign-project") store
      = (Fail 400 "Project is required for project assignment", store)).
Proof.
  intros Hne. destruct taskIds as [|i ids]; [now elim Hne|].
  repeat split; intros Hv;
    unfold bulkUpdateTasks, Sample.request, switchOperation;
    cbn [Body.taskIds Body.updates Body.operation isOperation get bind];
    simpl String.eqb; cbv iota; unfold updateCase; now rewrite Hv.
Qed.

(** ** More on the bulk mutation *)

(** The three ways a bulk request ends: a refusal that leaves the store as
    it was, an update of the selected tasks by one of the three setters, or
    the removal of the selected tasks. *)
Lemma bulkUpdateTasks_cases (now : Z) (body : Body.t) (store : list Task) :
  (exists code text,
      (code = 400 \/ code = 500)%Z
      /\ bulkUpdateTasks now body store = (Fail code text, store))
  \/ (exists taskIds set,
        Body.taskIds body = Some taskIds /\ taskIds <> []
        /\ isOperation (Body.operation body) "delete" = false
        /\ ((exists s, set = setStatus s now)
            \/ (exists p, set = setPriority p now)
            \/ (exists p, set = setProject p now))
        /\ bulkUpdateTasks now body store
           = (Json 200
                {| BulkData.operation := Body.operation body;
                   BulkData.affectedCount :=
                     Js.or (WriteResult.modifiedCount
                              (snd (Store.updateMany taskIds set store)))
                           Js.Undefined;
                   BulkData.taskIds := taskIds |},
              fst (Store.updateMany taskIds set store)))
  \/ (exists taskIds,
        Body.taskIds body = Some taskIds /\ taskIds <> []
        /\ isOperation (Body.operation body) "delete" = true
        /\ bulkUpdateTasks now body store
           = (Json 200
                {| BulkData.operation := Body.operation body;
                   BulkData.affectedCount :=
                     Js.Number (Js.ofZ (Mongo.size
                       (filter (Store.selected taskIds) store)));
                   BulkData.taskIds := taskIds |},
              filter (fun t => negb (Store.selected taskIds t)) store)).
Proof.
  unfold bulkUpdateTasks.
  destruct (Body.taskIds body) as [[|i ids]|] eqn:Hids;
    try (left; do 2 eexists; split; [|reflexivity]; auto).
  unfold switchOperation.
  destruct (Body.operation body) as [op|] eqn:Hop; cbn [isOperation];
    [|left; do 2 eexists; split; [|reflexivity]; auto].
  assert (Hupd : forall (v : option string) (missing : string)
                        (set : string -> Task -> Task),
             (exists code text,
                 (code = 400 \/ code = 500)%Z /\
                 match updateCase v missing (i :: ids) set store with
                 | inl reply => (reply, store)
                 | inr (store', result) =>
                     (Json 200
                        {| BulkData.operation := Some op;
                           BulkData.affectedCount :=
                             Js.or (WriteResult.modifiedCount result)
                                   (WriteResult.deletedCount result);
                           BulkData.taskIds := i :: ids |}, store')
                 end = (Fail code text, store))
             \/ (exists x,
                    match updateCase v missing (i :: ids) set store with
                    | inl reply => (reply, store)
                    | inr (store', result) =>
                        (Json 200
                           {| BulkData.operation := Some op;
                              BulkData.affectedCount :=
                                Js.or (WriteResult.modifiedCount result)
                                      (WriteResult.deletedCount result);
                              BulkData.taskIds := i :: ids |}, store')
                    end
                    = (Json 200
                         {| BulkData.operation := Some op;
                            BulkData.affectedCount :=
                              Js.or (WriteResult.modifiedCount
                                       (snd (Store.updateMany (i :: ids) (set x) store)))
                                    Js.Undefined;
                            BulkData.taskIds := i :: ids |},
                       fst (Store.updateMany (i :: ids) (set x) store)))).
  { intros v missing set. unfold updateCase.
    destruct (present v) as [x|];
      [right; exists x; reflexivity
      |left; do 2 eexists; split; [|reflexivity]; auto]. }
  destruct (String.eqb_spec op "update-status") as [->|_].
  { destruct (Body.updates body) as [u|]; cbn [get bind];
      [|left; do 2 eexists; split; [|reflexivity]; auto].
    destruct (Hupd (Updates.status u) "Status is required for status update"%string
                (fun s => setStatus s now))
      as [Hfail|[x Hx]]; [now left|].
    right; left. exists (i :: ids), (setStatus x now).
    repeat split; try discriminate; [left; now exists x|exact Hx]. }
  destruct (String.eqb_spec op "update-priority") as [->|_].
  { destruct (Body.updates body) as [u|]; cbn [get bind];
      [|left; do 2 eexists; split; [|reflexivity]; auto].
    destruct (Hupd (Updates.priority u) "Priority is required for priority update"%string
                (fun p => setPriority p now))
      as [Hfail|[x Hx]]; [now left|].
    right; left. exists (i :: ids), (setPriority x now).
    repeat split; try discriminate; [right; left; now exists x|exact Hx]. }
  destruct (String.eqb_spec op "assign-project") as [->|_].
  { destruct (Body.updates body) as [u|]; cbn [get bind];
      [|left; do 2 eexists; split; [|reflexivity]; auto].
    destruct (Hupd (Updates.project u) "Project is required for project assignment"%string
                (fun p => setProject p now))
      as [Hfail|[x Hx]]; [now left|].
    right; left. exists (i :: ids), (setProject x now).
    repeat split; try discriminate; [right; right; now exists x|exact Hx]. }
  destruct (String.eqb op "delete") eqn:Hdel.
  - right; right. exists (i :: ids). repeat split; discriminate.
  - left. do 2 eexists. split; [|reflexivity]. auto.
Qed.

(** A refused bulk request is answered with status 400 or 500 and writes
    nothing. *)
Theorem bulkUpdateTasks_refusal_keeps_store (now : Z) (body : Body.t)
  (store store' : list Task) (code : Z) (text : string) :
  bulkUpdateTasks now body store = (Fail code text, store') ->
  store' = store /\ (code = 400 \/ code = 500)%Z.
Proof.
  intros H.
  destruct (bulkUpdateTasks_cases now body store)
    as [(c & e & Hc & Heq)|[(ids & set & _ & _ & _ & _ & Heq)|(ids & _ & _ & _ & Heq)]];
    rewrite Heq in H; inversion H; subst; auto.
Qed.

Lemma bulkUpdateTasks_refusal_keeps_store_witness :
  Sample.backlog = Sample.backlog /\ (400 = 400 \/ 400 = 500)%Z.
Proof.
  apply (bulkUpdateTasks_refusal_keeps_store 1000 Sample.noIds Sample.backlog
           Sample.backlog 400 "Validation failed").
  reflexivity.
Defined.

(** A bulk request other than [delete] neither adds nor removes a task, and
    leaves the identifier, the title, the due date, the completion date, the
    hour figures and the creation date of every task as they were: a status
    set to completed in bulk gets no completion date. *)
Theorem bulkUpdateTasks_update_frame (now : Z) (body : Body.t) (store : list Task) :
  isOperation (Body.operation body) "delete" = false ->
  map (fun t => (_id t, title t, dueDate t, completedDate t,
                 estimatedHours t, actualHours t, createdAt t))
      (snd (bulkUpdateTasks now body store))
  = map (fun t => (_id t, title t, dueDate t, completedDate t,
                   estimatedHours t, actualHours t, createdAt t))
        store.
Proof.
  intros Hop.
  destruct (bulkUpdateTasks_cases now body store)
    as [(c & e & _ & Heq)|[(ids & set & _ & _ & _ & Hset & Heq)|(ids & _ & _ & Hdel & _)]].
  - now rewrite Heq.
  - rewrite Heq. cbn [snd fst Store.updateMany]. rewrite map_map.
    apply map_ext. intros t. destruct (Store.selected ids t); [|reflexivity].
    destruct Hset as [[s ->]|[[p ->]|[p ->]]]; reflexivity.
  - congruence.
Qed.

Lemma bulkUpdateTasks_update_frame_witness :
  map (fun t => (_id t, title t, dueDate t, completedDate t,
                 estimatedHours t, actualHours t, createdAt t))
      (snd (bulkUpdateTasks 1000
              (Sample.request ["b"; "c"]%string (Some Sample.toCompleted)
                 "update-status") Sample.backlog))
  = map (fun t => (_id t, title t, dueDate t, completedDate t,
                   estimatedHours t, actualHours t, createdAt t))
        Sample.backlog.
Proof.
  apply (bulkUpdateTasks_update_frame 1000
           (Sample.request ["b"; "c"]%string (Some Sample.toCompleted)
              "update-status") Sample.backlog).
  reflexivity.
Defined.

(** After a status update in bulk, the tasks named by the request carry the
    new status and the date of the request, and every other task of the
    store is the task it was. *)
Theorem bulkUpdateTasks_status_effect (now : Z) (taskIds : list string)
  (u : Updates.t) (s : string) (store : list Task) :
  taskIds <> [] ->
  present (Updates.status u) = Some s ->
  let store' := snd (bulkUpdateTasks now
                       (Sample.request taskIds (Some u) "update-status") store) in
  (forall t, In t store -> Store.selected taskIds t = true ->
             In (setStatus s now t) store')
  /\ (forall t', In t' store' ->
        (Store.selected taskIds t' = true /\ status t' = s /\ updatedAt t' = now)
        \/ (Store.selected taskIds t' = false /\ In t' store)).
Proof.
  intros Hne Hs store'. subst store'.
  unfold bulkUpdateTasks, Sample.request, switchOperation.
  cbn [Body.taskIds Body.updates Body.operation isOperation get bind].
  destruct taskIds as [|i ids]; [now elim Hne|].
  simpl String.eqb; cbv iota. unfold updateCase. rewrite Hs.
  cbn [Store.updateMany snd fst]. split.
  - intros t Hin Hsel. apply in_map_iff. exists t. now rewrite Hsel.
  - intros t' Hin. apply in_map_iff in Hin as (t & <- & Hin).
    destruct (Store.selected (i :: ids) t) eqn:Hsel; [left|right; now split].
    repeat split. exact Hsel.
Qed.

Lemma bulkUpdateTasks_status_effect_witness :
  let store' := snd (bulkUpdateTasks 1000
                       (Sample.request ["b"; "x"]%string (Some Sample.toCompleted)
                          "update-status") Sample.backlog) in
  (forall t, In t Sample.backlog -> Store.selected ["b"; "x"]%string t = true ->
             In (setStatus "completed" 1000 t) store')
  /\ (forall t', In t' store' ->
        (Store.selected ["b"; "x"]%string t' = true
         /\ status t' = "completed"%string /\ updatedAt t' = 1000%Z)
        \/ (Store.selected ["b"; "x"]%string t' = false /\ In t' Sample.backlog)).
Proof.
  apply (bulkUpdateTasks_status_effect 1000 ["b"; "x"]%string Sample.toCompleted
           "completed" Sample.backlog).
  - discriminate.
  - reflexivity.
Defined.

Lemma filter_split_size {A} (f : A -> bool) (l : list A) :
  (Mongo.size (filter f l) + Mongo.size (filter (fun x => negb (f x)) l)
   = Mongo.size l)%Z.
Proof.
  unfold Mongo.size. induction l as [|x r IH]; [reflexivity|].
  simpl. destruct (f x); simpl List.length; lia.
Qed.



(** When the tasks of the store have distinct identifiers, the
    [affectedCount] of an accepted bulk request is undefined or a number
    between 0 and the number of identifiers of the request. *)
Theorem bulkUpdateTasks_affected_bound (now : Z) (body : Body.t)
  (store : list Task) (code : Z) (data : BulkData.t) :
  NoDup (map _id store) ->
  fst (bulkUpdateTasks now body store) = Json code data ->
  BulkData.affectedCount data = Js.Undefined
  \/ exists n, BulkData.affectedCount data = Js.Number (Js.ofZ n)
               /\ (0 <= n <= Mongo.size (BulkData.taskIds data))%Z.
Proof.
  intros Hnd H.
  destruct (bulkUpdateTasks_cases now body store)
    as [(c & e & _ & Heq)|[(ids & set & _ & _ & _ & _ & Heq)|(ids & _ & _ & _ & Heq)]];
    rewrite Heq in H; cbn [fst] in H; inversion H; subst; clear H;
    cbn [BulkData.affectedCount BulkData.taskIds].
  - cbn [Store.updateMany snd WriteResult.modifiedCount Js.or].
    match goal with
    | |- context [negb (Qeq_bool ?x 0)] => destruct (negb (Qeq_bool x 0))
    end; [right|now left].
    eexists. split; [reflexivity|]. split; [apply size_nonneg|].
    rewrite <- filter_filter_andb.
    etransitivity; [apply size_filter_le|].
    now apply selected_at_most_taskIds.
  - right. eexists. split; [reflexivity|]. split; [apply size_nonneg|].
    now apply selected_at_most_taskIds.
Qed.

Lemma bulkUpdateTasks_affected_bound_witness :
  Js.Number (Js.ofZ 2) = Js.Undefined
  \/ exists n, Js.Number (Js.ofZ 2) = Js.Number (Js.ofZ n)
               /\ (0 <= n <= Mongo.size ["a"; "x"; "b"]%string)%Z.
Proof.
  apply (bulkUpdateTasks_affected_bound 1000
           (Sample.request ["a"; "x"; "b"]%string (Some Sample.toCompleted)
              "update-status") Sample.backlog 200
           {| BulkData.operation := Some "update-status"%string;
              BulkData.affectedCount := Js.Number (Js.ofZ 2);
              BulkData.taskIds := ["a"; "x"; "b"]%string |}).
  - simpl. repeat constructor; simpl; intuition discriminate.
  - reflexivity.
Defined.

(** ** The Task model *)

(** After a save that changes the status, a task has a completion date if and
    only if its status is completed; the hook leaves the status alone and
    keeps a completion date that a completed task already has. *)
Theorem preSave_completion_date (now : Z) (t : Task) :
  let saved := TaskModel.preSave true now t in
  status saved = status t
  /\ exists_ (completedDate saved) = String.eqb (status saved) "completed"
  /\ (forall d, status t = "completed"%string -> completedDate t = Some d ->
                completedDate saved = Some d)
  /\ (status t = "completed"%string -> completedDate t = None ->
      completedDate saved = Some now).
Proof.
  unfold TaskModel.preSave.
  destruct (String.eqb (status t) "completed") eqn:Hs;
    destruct (completedDate t) as [d|] eqn:Hd; simpl;
    rewrite ?Hs, ?Hd; repeat split; try congruence;
    intros; apply String.eqb_neq in Hs; contradiction.
Qed.

Lemma preSave_completion_date_witness :
  completedDate (TaskModel.preSave true 700 Sample.done) = Some 500%Z.
Proof.
  apply (proj1 (proj2 (proj2 (preSave_completion_date 700 Sample.done)))).
  - reflexivity.
  - reflexivity.
Defined.

(** The save hook is idempotent: a second save, at whatever date, leaves the
    task as the first save made it, so a completion date is stamped once. *)
Theorem preSave_idempotent (modified : bool) (now now' : Z) (t : Task) :
  TaskModel.preSave modified now' (TaskModel.preSave true now t)
  = TaskModel.preSave true now t.
Proof.
  unfold TaskModel.preSave.
  destruct modified; [|reflexivity].
  destruct (String.eqb (status t) "completed") eqn:Hs;
    destruct (completedDate t) as [d|] eqn:Hd; simpl;
    rewrite ?Hs, ?Hd; reflexivity.
Qed.

(** The static [findOverdue] returns the tasks for which the virtual
    [isOverdue] holds at the same date, and they are the tasks the
    dashboard's overdue filter keeps. *)
Theorem findOverdue_isOverdue (now : Z) (tasks : list Task) :
  (forall t, In t (TaskModel.findOverdue now tasks)
             <-> In t tasks /\ TaskModel.isOverdue now t = true)
  /\ TaskModel.findOverdue now tasks = filter (overdueMatch now) tasks.
Proof.
  split; [|reflexivity].
  intros t. unfold TaskModel.findOverdue. rewrite filter_In.
  assert (Heq : (match dueDate t with
                 | Some due => (due <? now)%Z
                 | None => false
                 end
                 && negb (existsb (String.eqb (status t))
                                  ["completed"; "cancelled"]%string))
                = TaskModel.isOverdue now t).
  { unfold TaskModel.isOverdue. cbn [existsb]. rewrite orb_false_r.
    destruct (dueDate t) as [due|]; [|reflexivity].
    destruct (String.eqb (status t) "completed" || String.eqb (status t) "cancelled");
      [apply andb_false_r|apply andb_true_r]. }
  now rewrite Heq.
Qed.

(** Where the virtual [timeVariance] is not null, the time-tracking report
    has a row for the task with that variance; and the [avgVariance] of the
    dashboard averages the virtual's value, with 0 where it is null. *)
Theorem timeVariance_report_and_dashboard (t : Task) :
  (forall v, TaskModel.timeVariance t = Some v ->
             exists row, timeTrackingRow t = Ok row
                         /\ TimeRow.variance row = Some v)
  /\ variance t = Some (match TaskModel.timeVariance t with
                        | Some v => v
                        | None => 0
                        end).
Proof.
  unfold TaskModel.timeVariance, timeTrackingRow, variance, Mongo.truthy.
  destruct (estimatedHours t) as [e|], (actualHours t) as [a|]; simpl;
    try (split; [discriminate|]; try reflexivity).
  - destruct (Qeq_bool e 0) eqn:He, (Qeq_bool a 0) eqn:Ha; simpl;
      split; try discriminate; try reflexivity.
    intros v Hv. inversion Hv; subst. eexists. split; reflexivity.
  - destruct (Qeq_bool e 0); reflexivity.
Qed.

Lemma timeVariance_report_and_dashboard_witness :
  exists row, timeTrackingRow Sample.done = Ok row
              /\ TimeRow.variance row = Some (3 - 2).
Proof.
  apply (proj1 (timeVariance_report_and_dashboard Sample.done)).
  reflexivity.
Defined.

Lemma date_leb_total (a b : option Z) :
  Mongo.date_leb a b = false -> Mongo.date_leb b a = true.
Proof.
  destruct a as [x|], b as [y|]; simpl; try discriminate; try reflexivity.
  intros H. apply Z.leb_gt in H. apply Z.leb_le. lia.
Qed.

Lemma date_leb_trans (a b c : option Z) :
  Mongo.date_leb a b = true -> Mongo.date_leb b c = true ->
  Mongo.date_leb a c = true.
Proof.
  destruct a as [x|], b as [y|], c as [z|]; simpl;
    try discriminate; try reflexivity.
  intros H1 H2. apply Z.leb_le in H1, H2. apply Z.leb_le. lia.
Qed.

(** [findByPriority] returns the tasks of the priority, each as often as the
    collection has it, by due date ascending with the tasks without a due
    date first. *)
Theorem findByPriority_sorted (p : string) (tasks : list Task) :
  Permutation (TaskModel.findByPriority p tasks)
              (filter (fun t => String.eqb (priority t) p) tasks)
  /\ StronglySorted (fun a b => Mongo.date_leb (dueDate a) (dueDate b) = true)
                    (TaskModel.findByPriority p tasks).
Proof.
  unfold TaskModel.findByPriority. split; [apply sort_perm|].
  apply sort_sorted.
  - intros a b. apply date_leb_total.
  - intros a b c. apply date_leb_trans.
Qed.

(** ** Error handling middleware *)

Ltac handler_cases :=
  unfold globalErrorHandler, get, bind, createError;
  repeat match goal with
         | |- context [if ?c then _ else _] =>
             lazymatch c with
             | context [if _ then _ else _] => fail
             | _ => destruct c eqn:?
             end
         | |- context [match ?o with Some _ => _ | None => _ end] =>
             lazymatch o with
             | context [if _ then _ else _] => fail
             | context [match _ with Some _ => _ | None => _ end] => fail
             | _ => destruct o eqn:?
             end
         end;
  cbn [fst snd bind].

(** An unknown endpoint is answered with status 404 and a text that names
    the address asked for; a request that times out with status 408. *)
Theorem globalErrorHandler_notFound_timeout (originalUrl : string) :
  globalErrorHandler (notFoundHandler originalUrl)
  = Ok (404%Z, ("Endpoint not found - " ++ originalUrl)%string)
  /\ globalErrorHandler requestTimeout = Ok (408%Z, "Request timeout"%string).
Proof. split; reflexivity. Qed.



(** Whatever the error, a reply of the handler has a text that is not empty
    and a status that is not 0: the status is 400, 401, 404, 409, 429, 500,
    or the [statusCode] the error itself carries. *)
Theorem globalErrorHandler_reply (err : Err.t) (code : Z) (text : string) :
  globalErrorHandler err = Ok (code, text) ->
  text <> ""%string
  /\ code <> 0%Z
  /\ (In code [400; 401; 404; 409; 429; 500]%Z \/ Err.statusCode err = Some code).
Proof.
  handler_cases; intros H; inversion H; subst; clear H;
    repeat match goal with
           | H : String.eqb _ ""%string = false |- _ => apply String.eqb_neq in H
           | H : (_ =? 0)%Z = false |- _ => apply Z.eqb_neq in H
           end;
    repeat split; try assumption; try discriminate;
    try (left; simpl; tauto); try (right; reflexivity);
    cbn [fst snd] in *;
    repeat match goal with
           | H : Some _ = Some _ |- _ => inversion H; subst; clear H
           | H : Some _ = None |- _ => discriminate H
           end;
    try (left; simpl; tauto); try (right; assumption).
Qed.

Lemma globalErrorHandler_reply_witness :
  ("Task title is required, Estimated hours cannot be negative" <> "")%string
  /\ 400%Z <> 0%Z
  /\ (In 400%Z [400; 401; 404; 409; 429; 500]%Z
      \/ Err.statusCode Sample.invalid = Some 400%Z).
Proof.
  apply (globalErrorHandler_reply Sample.invalid 400
           "Task title is required, Estimated hours cannot be negative").
  reflexivity.
Defined.



(** A validation error that is neither a duplicate-key error nor rate
    limited is answered with status 400 and the messages of its fields
    joined by a comma and a space; with no message at all the text is the
    default one. *)
Theorem globalErrorHandler_validation (err : Err.t) (messages : list string) :
  Err.name err = "ValidationError"%string ->
  Err.errors err = Some messages ->
  optZ_is (Err.code err) 11000 = false ->
  optZ_is (Err.status err) 429 = false ->
  globalErrorHandler err
  = Ok (400%Z,
        if String.eqb (String.concat ", " messages) ""
        then "Internal Server Error"%string
        else String.concat ", " messages).
Proof.
  intros Hn He Hc Hs. unfold globalErrorHandler.
  rewrite Hn, He, Hc, Hs. reflexivity.
Qed.

Lemma globalErrorHandler_validation_witness :
  globalErrorHandler Sample.invalid
  = Ok (400%Z,
        "Task title is required, Estimated hours cannot be negative"%string).
Proof.
  apply (globalErrorHandler_validation Sample.invalid
           ["Task title is required"; "Estimated hours cannot be negative"]%string);
    reflexivity.
Defined.

(** ** deleteProject *)

Lemma findByIdAndDelete_none (id : string) (projects rest : list Project.t) :
  findByIdAndDelete id projects = (None, rest) ->
  forall p, In p projects -> String.eqb (Project._id p) id = false.
Proof.
  revert rest. induction projects as [|q r IH]; intros rest H p Hin;
    [destruct Hin|].
  simpl in H. destruct (String.eqb (Project._id q) id) eqn:Hq; [discriminate|].
  destruct (findByIdAndDelete id r) as [found r'] eqn:Hr.
  inversion H; subst.
  destruct Hin as [<-|Hin]; [exact Hq|]. now apply (IH r').
Qed.

Lemma findByIdAndDelete_some (id : string) (projects rest : list Project.t)
  (p : Project.t) :
  findByIdAndDelete id projects = (Some p, rest) ->
  Project._id p = id
  /\ Permutation projects (p :: rest)
  /\ (NoDup (map Project._id projects) ->
      forall q, In q rest -> Project._id q <> id).
Proof.
  revert rest. induction projects as [|q r IH]; intros rest H; [discriminate|].
  simpl in H. destruct (String.eqb_spec (Project._id q) id) as [Hq|Hq].
  - inversion H; subst. repeat split; [reflexivity|].
    intros Hnd x Hx Heq. inversion Hnd as [|? ? Hnotin _]; subst.
    apply Hnotin. rewrite <- Heq. now apply in_map.
  - destruct (findByIdAndDelete id r) as [found r'] eqn:Hr.
    inversion H; subst.
    destruct (IH r' eq_refl) as (Hid & Hperm & Hrest).
    repeat split; [exact Hid| |].
    + rewrite Hperm. apply perm_swap.
    + intros Hnd x [<-|Hx]; [exact Hq|].
      inversion Hnd; subst. now apply Hrest.
Qed.



(** An accepted deletion is answered with status 200 and the identifier
    asked for; the project collection loses one project, [deletedTasksCount]
    is the number of tasks the task collection loses, no task that is left
    references the project, and no project that is left has its identifier
    when identifiers are distinct. *)
Theorem deleteProject_success (id : string) (deleteTasks : option string)
  (db db' : Db.t) (code : Z) (data : Deleted.t) :
  deleteProject id deleteTasks db = (Json code data, db') ->
  code = 200%Z
  /\ Deleted.id data = id
  /\ (Mongo.size (Db.projects db') = Mongo.size (Db.projects db) - 1)%Z
  /\ (Deleted.deletedTasksCount data
      = Mongo.size (Db.tasks db) - Mongo.size (Db.tasks db'))%Z
  /\ (forall t, In t (Db.tasks db') -> references id t = false)
  /\ (forall t, In t (Db.tasks db') -> In t (Db.tasks db))
  /\ (NoDup (map Project._id (Db.projects db)) ->
      forall p, In p (Db.projects db') -> Project._id p <> id).
Proof.
  unfold deleteProject.
  destruct ((0 <? _)%Z && negb (isTrue deleteTasks)) eqn:Hguard; [discriminate|].
  destruct (findByIdAndDelete id (Db.projects db)) as [[p|] rest] eqn:Hfind;
    [|discriminate].
  destruct (findByIdAndDelete_some id _ _ _ Hfind) as (Hid & Hperm & Hrest).
  assert (Hsize : (Mongo.size rest = Mongo.size (Db.projects db) - 1)%Z).
  { unfold Mongo.size. rewrite (Permutation_length Hperm).
    cbn [List.length]. lia. }
  destruct (isTrue deleteTasks) eqn:Hdt; intros H; inversion H; subst; clear H;
    cbn [Deleted.id Deleted.deletedTasksCount Db.projects Db.tasks].
  - repeat split; try assumption.
    + pose proof (filter_split_size (references (Project._id p)) (Db.tasks db)). lia.
    + intros t Ht. apply filter_In in Ht as [_ Ht]. now apply negb_true_iff.
    + intros t Ht. now apply filter_In in Ht as [Ht _].
  - repeat split; try assumption; try lia; try (intros t Ht; exact Ht).
    intros t Ht. rewrite andb_true_r in Hguard. apply Z.ltb_ge in Hguard.
    destruct (references (Project._id p) t) eqn:Href; [|reflexivity].
    assert (Hf : In t (filter (references (Project._id p)) (Db.tasks db)))
      by (apply filter_In; now split).
    unfold Mongo.size in Hguard.
    destruct (filter (references (Project._id p)) (Db.tasks db));
      [destruct Hf|simpl in Hguard; lia].
Qed.

Lemma deleteProject_success_witness :
  200%Z = 200%Z
  /\ Deleted.id {| Deleted.id := "p1"; Deleted.name := "Alpha";
                   Deleted.deletedTasksCount := 2 |} = "p1"%string
  /\ (Mongo.size (Db.projects (snd (deleteProject "p1" (Some "true"%string) Sample.db)))
      = Mongo.size (Db.projects Sample.db) - 1)%Z
  /\ (2 = Mongo.size (Db.tasks Sample.db)
          - Mongo.size (Db.tasks (snd (deleteProject "p1" (Some "true"%string) Sample.db))))%Z
  /\ (forall t, In t (Db.tasks (snd (deleteProject "p1" (Some "true"%string) Sample.db))) ->
                references "p1" t = false)
  /\ (forall t, In t (Db.tasks (snd (deleteProject "p1" (Some "true"%string) Sample.db))) ->
                In t (Db.tasks Sample.db))
  /\ (NoDup (map Project._id (Db.projects Sample.db)) ->
      forall p, In p (Db.projects (snd (deleteProject "p1" (Some "true"%string) Sample.db))) ->
                Project._id p <> "p1"%string).
Proof.
  apply (deleteProject_success "p1" (Some "true"%string) Sample.db
           (snd (deleteProject "p1" (Some "true"%string) Sample.db)) 200
           {| Deleted.id := "p1"; Deleted.name := "Alpha";
              Deleted.deletedTasksCount := 2 |}).
  reflexivity.
Defined.

(** What a deletion request leaves: the database as it was, or the projects
    without the one found and tasks none of which references it. *)
Lemma deleteProject_outcome (id : string) (deleteTasks : option string)
  (db : Db.t) :
  snd (deleteProject id deleteTasks db) = db
  \/ exists p rest,
       findByIdAndDelete id (Db.projects db) = (Some p, rest)
       /\ Db.projects (snd (deleteProject id deleteTasks db)) = rest
       /\ forall t, In t (Db.tasks (snd (deleteProject id deleteTasks db))) ->
                    In t (Db.tasks db) /\ references id t = false.
Proof.
  unfold deleteProject.
  destruct ((0 <? _)%Z && negb (isTrue deleteTasks)) eqn:Hguard; [now left|].
  destruct (findByIdAndDelete id (Db.projects db)) as [[p|] rest] eqn:Hfind;
    [|now left].
  right. exists p, rest. split; [reflexivity|].
  destruct (isTrue deleteTasks) eqn:Hdt; cbn [snd Db.projects Db.tasks];
    (split; [reflexivity|]); intros t Ht.
  - apply filter_In in Ht as [Hin Href]. split; [exact Hin|].
    now apply negb_true_iff.
  - split; [exact Ht|]. rewrite andb_true_r in Hguard. apply Z.ltb_ge in Hguard.
    destruct (references id t) eqn:Href; [|reflexivity].
    assert (Hf : In t (filter (references id) (Db.tasks db)))
      by (apply filter_In; now split).
    unfold Mongo.size in Hguard.
    destruct (filter (references id) (Db.tasks db));
      [destruct Hf|simpl in Hguard; lia].
Qed.

(** Deleting a project never leaves a task behind that points at a missing
    project: if every project reference resolved before the request, every
    one resolves after it, whatever the reply. *)
Theorem deleteProject_keeps_references (id : string) (deleteTasks : option string)
  (db : Db.t) :
  (forall t, In t (Db.tasks db) -> resolved (Db.projects db) t = true) ->
  forall t, In t (Db.tasks (snd (deleteProject id deleteTasks db))) ->
            resolved (Db.projects (snd (deleteProject id deleteTasks db))) t = true.
Proof.
  intros Hres t Hin.
  destruct (deleteProject_outcome id deleteTasks db)
    as [Hsame|(p & rest & Hfind & Hrest & Htasks)].
  - rewrite Hsame in *. now apply Hres.
  - destruct (Htasks t Hin) as [Hold Hn]. pose proof (Hres t Hold) as Ht.
    destruct (findByIdAndDelete_some id _ _ _ Hfind) as (Hid & Hperm & _).
    rewrite Hrest. unfold resolved, references in *.
    destruct (project t) as [i|]; [|reflexivity].
    apply existsb_exists in Ht as (q & Hq & Hqi).
    apply existsb_exists. exists q. split; [|exact Hqi].
    apply (Permutation_in _ Hperm) in Hq. destruct Hq as [<-|Hq]; [|exact Hq].
    apply String.eqb_eq in Hqi. rewrite Hid in Hqi. subst i.
    rewrite String.eqb_refl in Hn. discriminate.
Qed.

Lemma deleteProject_keeps_references_witness :
  resolved (Db.projects (snd (deleteProject "p2" None Sample.db)))
           (Sample.linked "a" "completed" (Some "p1"%string) 40) = true.
Proof.
  apply (deleteProject_keeps_references "p2" None Sample.db).
  - intros t Ht. simpl in Ht.
    destruct Ht as [<-|[<-|[<-|[]]]]; reflexivity.
  - vm_compute. auto.
Defined.

(** ** getProjectTasks *)



(** The number of pages: the least count of pages of [limit] documents that
    hold [total] documents. *)
Lemma totalPages_spec (total limit : Z) :
  (1 <= limit)%Z ->
  exists n,
    ceil (Js.div (Js.ofZ total) (Js.ofZ limit)) = Js.ofZ n
    /\ ((n - 1) * limit < total <= n * limit)%Z.
Proof.
  intros Hlimit. unfold Js.div, Js.ofZ.
  assert (Hpos : 0 < inject_Z limit) by (rewrite <- (Zlt_Qlt 0); lia).
  destruct (Qeq_bool (inject_Z limit) 0) eqn:Hz.
  { apply Qeq_bool_eq in Hz. rewrite Hz in Hpos. now apply Qlt_irrefl in Hpos. }
  cbn [ceil]. exists (Qceiling (inject_Z total / inject_Z limit)).
  split; [reflexivity|].
  set (x := inject_Z total / inject_Z limit).
  assert (Hx : x * inject_Z limit == inject_Z total).
  { unfold x. field. intros H. rewrite H in Hpos. now apply Qlt_irrefl in Hpos. }
  pose proof (Qle_ceiling x) as Hup. pose proof (Qceiling_lt x) as Hlow.
  split.
  - apply (Qmult_lt_r _ _ _ Hpos) in Hlow. rewrite Hx in Hlow.
    rewrite <- inject_Z_mult in Hlow. now rewrite <- Zlt_Qlt in Hlow.
  - apply (Qmult_le_r _ _ _ Hpos) in Hup. rewrite Hx in Hup.
    rewrite <- inject_Z_mult in Hup. now rewrite <- Zle_Qle in Hup.
Qed.

Lemma lt_ofZ (a b : Z) : lt (Js.ofZ a) (Js.ofZ b) = (a <? b)%Z.
Proof.
  unfold lt, Js.ofZ.
  destruct (Z.ltb_spec a b) as [H|H].
  - apply negb_true_iff. destruct (Qle_bool (inject_Z b) (inject_Z a)) eqn:Hle;
      [|reflexivity].
    apply Qle_bool_iff in Hle. rewrite <- Zle_Qle in Hle. lia.
  - apply negb_false_iff. apply Qle_bool_iff. now rewrite <- Zle_Qle.
Qed.

(** A task of a page is a task of the project. *)
Lemma In_firstn_skipn_found (ascending : string -> Task -> Task -> bool)
  (id : string) (q : TaskQuery.t) (tasks : list Task) (a b : nat) (t : Task) :
  In t (firstn a (skipn b (projectTasksFound ascending id q tasks))) ->
  In t tasks /\ references id t = true.
Proof.
  intros Hin.
  assert (Hf : In t (projectTasksFound ascending id q tasks)).
  { rewrite <- (firstn_skipn b (projectTasksFound ascending id q tasks)).
    apply in_or_app. right.
    rewrite <- (firstn_skipn a (skipn b _)). apply in_or_app. now left. }
  unfold projectTasksFound in Hf.
  apply (Permutation_in _ (sort_perm _ _ _)) in Hf.
  apply filter_In in Hf as [Hin' Hm].
  apply andb_prop in Hm as [Hm _]. apply andb_prop in Hm as [Hm _].
  now split.
Qed.

(** For an existing project, a page number and a page size of at least 1,
    the reply has status 200; [data] is the slice of the sorted matching
    tasks that starts after the earlier pages and holds at most [limit]
    tasks, all of them tasks of the project; it is empty from the first page
    past the end; [totalPages] is the least number of pages that hold all
    matching tasks; [hasNextPage] tells whether tasks lie beyond this page
    and [hasPrevPage] whether the page is not the first. *)
Theorem getProjectTasks_page (ascending : string -> Task -> Task -> bool)
  (id : string) (q : TaskQuery.t) (db : Db.t) (p : Project.t) :
  let page := orDefault (TaskQuery.page q) 1%Z in
  let limit := orDefault (TaskQuery.limit q) 50%Z in
  let found := projectTasksFound ascending id q (Db.tasks db) in
  find (fun p => String.eqb (Project._id p) id) (Db.projects db) = Some p ->
  (1 <= page)%Z ->
  (1 <= limit)%Z ->
  exists body,
    getProjectTasks ascending id q db = Json 200 body
    /\ ProjectTasks.data body
       = firstn (Z.to_nat limit) (skipn (Z.to_nat ((page - 1) * limit)) found)
    /\ (Mongo.size (ProjectTasks.data body) <= limit)%Z
    /\ (forall t, In t (ProjectTasks.data body) ->
                  In t (Db.tasks db) /\ references id t = true)
    /\ ((Mongo.size found <= (page - 1) * limit)%Z -> ProjectTasks.data body = [])
    /\ Pagination.totalTasks (ProjectTasks.pagination body) = Mongo.size found
    /\ (exists n,
          Pagination.totalPages (ProjectTasks.pagination body) = Js.ofZ n
          /\ ((n - 1) * limit < Mongo.size found <= n * limit)%Z)
    /\ (Pagination.hasNextPage (ProjectTasks.pagination body) = true
        <-> (page * limit < Mongo.size found)%Z)
    /\ (Pagination.hasPrevPage (ProjectTasks.pagination body) = true
        <-> (1 < page)%Z).
Proof.
  intros page limit found Hfind Hpage Hlimit.
  unfold getProjectTasks. rewrite Hfind. fold page limit found.
  assert (Hskip : ((page - 1) * limit <? 0)%Z = false) by (apply Z.ltb_ge; nia).
  rewrite Hskip. eexists. split; [reflexivity|].
  cbn [ProjectTasks.data ProjectTasks.pagination Pagination.totalTasks
       Pagination.totalPages Pagination.hasNextPage Pagination.hasPrevPage].
  assert (Hcur : cursorLimit limit (skipn (Z.to_nat ((page - 1) * limit)) found)
                 = firstn (Z.to_nat limit)
                          (skipn (Z.to_nat ((page - 1) * limit)) found)).
  { unfold cursorLimit. destruct (Z.eqb_spec limit 0) as [H0|_]; [lia|].
    now rewrite Z.abs_eq by lia. }
  rewrite Hcur.
  destruct (totalPages_spec (Mongo.size found) limit Hlimit) as (n & Hn & Hbounds).
  repeat split.
  - unfold Mongo.size. pose proof (firstn_le_length (Z.to_nat limit)
      (skipn (Z.to_nat ((page - 1) * limit)) found)). lia.
  - apply In_firstn_skipn_found in H. apply H.
  - apply In_firstn_skipn_found in H. apply H.
  - intros Hpast. rewrite skipn_all2; [now rewrite firstn_nil|].
    unfold Mongo.size in Hpast. lia.
  - exists n. split; [exact Hn|exact Hbounds].
  - rewrite Hn, lt_ofZ. intros H. apply Z.ltb_lt in H. nia.
  - rewrite Hn, lt_ofZ. intros H. apply Z.ltb_lt. nia.
  - intros H. now apply Z.ltb_lt.
  - intros H. now apply Z.ltb_lt.
Qed.

Lemma getProjectTasks_page_witness :
  exists body,
    getProjectTasks Sample.byField "p1" Sample.onePerPage Sample.db = Json 200 body
    /\ ProjectTasks.data body = [Sample.linked "a" "completed" (Some "p1"%string) 40]
    /\ (Pagination.hasNextPage (ProjectTasks.pagination body) = true
        <-> (2 * 1 < 2)%Z).
Proof.
  destruct (getProjectTasks_page Sample.byField "p1" Sample.onePerPage Sample.db
              {| Project._id := "p1"; Project.name := "Alpha";
                 Project.status := "in-progress"; Project.priority := "high";
                 Project.dueDate := Some 5%Z |})
    as (body & Hreply & Hdata & _ & _ & _ & _ & _ & Hnext & _).
  - reflexivity.
  - simpl. lia.
  - simpl. lia.
  - exists body. split; [exact Hreply|]. split; [exact Hdata|exact Hnext].
Defined.




(** ** getProjectStats *)







(** In a sorted list, what the first [n] elements leave out comes after
    each of them. *)
Lemma sorted_firstn_skipn {A} (R : A -> A -> Prop) (n : nat) (l : list A) :
  StronglySorted R l ->
  forall x y, In x (firstn n l) -> In y (skipn n l) -> R x y.
Proof.
  intros Hs. revert n. induction Hs as [|a r Hr IH Hall]; intros n x y Hx Hy.
  - now rewrite firstn_nil in Hx.
  - destruct n as [|n]; [destruct Hx|]. simpl in Hx, Hy.
    destruct Hx as [<-|Hx].
    + rewrite Forall_forall in Hall. apply Hall.
      rewrite <- (firstn_skipn n r). apply in_or_app. now right.
    + now apply (IH n).
Qed.

Lemma in_firstn_or_skipn {A} (n : nat) (l : list A) (x : A) :
  In x l -> In x (firstn n l) \/ In x (skipn n l).
Proof.
  intros Hin. rewrite <- (firstn_skipn n l) in Hin. now apply in_app_or.
Qed.


(** The recent activity feed holds the most recent tasks of the window: a
    task of the window that is left out was updated no later than any entry
    of the feed. *)
Theorem recentActivity_most_recent (startDate : Z) (projects : list Project.t)
  (tasks : list Task) (row : Activity.t) (t : Task) :
  In row (recentActivity startDate projects tasks) ->
  In t tasks ->
  (startDate <= updatedAt t)%Z ->
  In (activityRow projects t) (recentActivity startDate projects tasks)
  \/ (updatedAt t <= Activity.updatedAt row)%Z.
Proof.
  unfold recentActivity. intros Hrow Ht Hrecent.
  set (newest := fun a b : Task => (updatedAt b <=? updatedAt a)%Z) in *.
  set (window := filter _ tasks) in *.
  assert (Hsorted : StronglySorted (fun a b => newest a b = true)
                                   (Mongo.sort newest window)).
  { apply sort_sorted; unfold newest.
    - intros a b H. apply Z.leb_gt in H. apply Z.leb_le. lia.
    - intros a b c H1 H2. apply Z.leb_le in H1, H2. apply Z.leb_le. lia. }
  assert (Hin : In t (Mongo.sort newest window)).
  { apply (Permutation_in _ (Permutation_sym (sort_perm _ newest window))).
    apply filter_In. split; [exact Ht|now apply Z.leb_le]. }
  apply in_map_iff in Hrow as (u & <- & Hu).
  destruct (in_firstn_or_skipn 20 _ _ Hin) as [Hfirst|Hrest].
  - left. now apply in_map.
  - right. pose proof (sorted_firstn_skipn _ 20 _ Hsorted u t Hu Hrest) as Hord.
    unfold newest in Hord. now apply Z.leb_le in Hord.
Qed.

Lemma recentActivity_most_recent_witness :
  In (activityRow Sample.projects (Sample.linked "d" "todo" None 10))
     (recentActivity 0 Sample.projects Sample.backlog)
  \/ (10 <= 40)%Z.
Proof.
  apply (recentActivity_most_recent 0 Sample.projects Sample.backlog
           (activityRow Sample.projects
              (Sample.linked "a" "completed" (Some "p1"%string) 40))
           (Sample.linked "d" "todo" None 10)).
  - simpl. auto.
  - simpl. auto.
  - simpl. lia.
Defined.

(** ** More on the dashboard *)

Lemma priorityDistribution_total_counts_tasks_witness :
  PriorityRow.total
    {| PriorityRow._id := "high";
       PriorityRow.statusBreakdown :=
         [ {| Breakdown.status := "todo"; Breakdown.count := 1 |};
           {| Breakdown.status := "completed"; Breakdown.count := 1 |} ];
       PriorityRow.total := 2 |}
  = Mongo.size (filter (fun t => String.eqb (priority t) "high") Sample.board).
Proof.
  apply (priorityDistribution_total_counts_tasks Sample.board).
  vm_compute. auto.
Defined.

Lemma completionRate_nonempty_witness :
  exists q, completionRate (taskStats Sample.board) = Js.fixed1 q /\ 0 <= q <= 100.
Proof.
  apply (completionRate_nonempty Sample.board). discriminate.
Defined.

Lemma sumZ_perm (l l' : list Z) :
  Permutation l l' -> Mongo.sumZ l = Mongo.sumZ l'.
Proof.
  unfold Mongo.sumZ.
  induction 1 as [|x l l' _ IH|x y l|l l' l'' _ IH1 _ IH2]; simpl; lia.
Qed.

Lemma sumZ_cons (x : Z) (l : list Z) :
  Mongo.sumZ (x :: l) = (x + Mongo.sumZ l)%Z.
Proof. reflexivity. Qed.

(** How many of the projects a task is joined to: one when its reference
    names a project, none otherwise, identifiers being distinct. *)
Lemma joined_once (projects : list Project.t) (t : Task) :
  NoDup (map Project._id projects) ->
  Mongo.sumZ (map (fun p => Mongo.size (tasksOf p [t])) projects)
  = if exists_ (project t) && resolved projects t then 1%Z else 0%Z.
Proof.
  induction projects as [|p r IH]; intros Hnd.
  - unfold resolved. destruct (project t); reflexivity.
  - inversion Hnd as [|? ? Hnotin Hr]; subst.
    cbn [map]. rewrite sumZ_cons, (IH Hr).
    unfold resolved, tasksOf, Mongo.size. cbn [filter existsb].
    destruct (project t) as [i|]; cbn [exists_ andb]; [|reflexivity].
    destruct (String.eqb_spec i (Project._id p)) as [Heq|Hne].
    + subst i. rewrite String.eqb_refl. cbn [orb List.length].
      destruct (existsb (fun q => String.eqb (Project._id q) (Project._id p)) r)
        eqn:Hex; [|reflexivity].
      apply existsb_exists in Hex as (q & Hq & Hqi).
      apply String.eqb_eq in Hqi. elim Hnotin. rewrite <- Hqi. now apply in_map.
    + destruct (String.eqb_spec (Project._id p) i) as [Heq|_];
        [now elim Hne|].
      cbn [orb List.length]. lia.
Qed.

Lemma tasksOf_cons (p : Project.t) (t : Task) (tasks : list Task) :
  Mongo.size (tasksOf p (t :: tasks))
  = (Mongo.size (tasksOf p [t]) + Mongo.size (tasksOf p tasks))%Z.
Proof.
  unfold tasksOf, Mongo.size. simpl.
  destruct (match project t with
            | Some i => String.eqb i (Project._id p)
            | None => false
            end); simpl List.length; lia.
Qed.

Lemma sumZ_add {A} (f g : A -> Z) (l : list A) :
  Mongo.sumZ (map (fun x => (f x + g x)%Z) l)
  = (Mongo.sumZ (map f l) + Mongo.sumZ (map g l))%Z.
Proof.
  unfold Mongo.sumZ. induction l as [|x r IH]; simpl; lia.
Qed.

Lemma joined_total (projects : list Project.t) (tasks : list Task) :
  NoDup (map Project._id projects) ->
  Mongo.sumZ (map (fun p => Mongo.size (tasksOf p tasks)) projects)
  = Mongo.size (filter (fun t => exists_ (project t) && resolved projects t) tasks).
Proof.
  intros Hnd. induction tasks as [|t r IH].
  - unfold tasksOf. simpl. induction projects as [|p ps IHp]; [reflexivity|].
    inversion Hnd; subst. cbn [map Mongo.sumZ fold_right].
    fold (Mongo.sumZ (map (fun _ : Project.t => Mongo.size (@nil Task)) ps)).
    now rewrite IHp.
  - rewrite (map_ext _ _ (fun p => tasksOf_cons p t r)).
    rewrite sumZ_add, IH, (joined_once projects t Hnd).
    cbn [filter]. destruct (exists_ (project t) && resolved projects t);
      unfold Mongo.size; cbn [List.length]; lia.
Qed.

(** The project progress comes by due date ascending, the projects without
    a due date first; and, project identifiers being distinct, the
    [totalTasks] of its rows add up to the number of tasks whose project
    reference names a project: no task is counted for two projects. *)
Theorem projectProgress_sorted_and_total (projects : list Project.t)
  (tasks : list Task) :
  exists rows,
    projectProgress projects tasks = Ok rows
    /\ StronglySorted
         (fun a b => Mongo.date_leb (Progress.dueDate a) (Progress.dueDate b) = true)
         rows
    /\ (NoDup (map Project._id projects) ->
        Mongo.sumZ (map Progress.totalTasks rows)
        = Mongo.size (filter (fun t => exists_ (project t) && resolved projects t)
                             tasks)).
Proof.
  unfold projectProgress.
  rewrite (mapM_ok _ _ _ (fun p _ => progressRow_ok tasks p)).
  cbn [bind]. eexists. split; [reflexivity|]. split.
  - apply sort_sorted.
    + intros a b. apply date_leb_total.
    + intros a b c. apply date_leb_trans.
  - intros Hnd.
    rewrite (sumZ_perm _ _ (Permutation_map Progress.totalTasks (sort_perm _ _ _))).
    rewrite map_map. cbn [Progress.totalTasks]. now apply joined_total.
Qed.

Lemma projectProgress_sorted_and_total_witness :
  exists rows,
    projectProgress Sample.projects Sample.backlog = Ok rows
    /\ Mongo.sumZ (map Progress.totalTasks rows) = 2%Z.
Proof.
  destruct (projectProgress_sorted_and_total Sample.projects Sample.backlog)
    as (rows & Hrows & _ & Htotal).
  exists rows. split; [exact Hrows|].
  apply Htotal. simpl. repeat constructor; simpl; intuition discriminate.
Defined.

Lemma overduePipeline_ok (nowMatch nowGroup : Z) (tasks : list Task) :
  overduePipeline nowMatch nowGroup tasks
  = Ok (map (fun g =>
               {| Overdue._id := fst g;
                  Overdue.count := Mongo.count (snd g);
                  Overdue.avgOverdueDays :=
                    Mongo.avg (map (overdueAge nowGroup) (snd g)) |})
            (Mongo.group_by String.eqb priority
               (filter (overdueMatch nowMatch) tasks))).
Proof.
  unfold overduePipeline. apply mapM_ok. intros g _. apply overdueGroup_ok.
Qed.

Lemma sum_pos (qs : list Q) :
  qs <> [] -> (forall q, In q qs -> 0 < q) -> 0 < fold_right Qplus 0 qs.
Proof.
  induction qs as [|q r IH]; intros Hne Hpos; [now elim Hne|]. simpl.
  assert (Hq : 0 < q) by (apply Hpos; now left).
  destruct r as [|q' r'].
  - simpl. now rewrite Qplus_0_r.
  - assert (Hr : 0 < fold_right Qplus 0 (q' :: r')).
    { apply IH; [discriminate|]. intros x Hx. apply Hpos. now right. }
    assert (H : 0 + 0 < q + fold_right Qplus 0 (q' :: r'))
      by (apply Qplus_lt_le_compat; [exact Hq|now apply Qlt_le_weak]).
    now rewrite Qplus_0_l in H.
Qed.

(** The average of positive numbers, at least one, is a positive number. *)
Lemma avg_pos (l : list Mongo.number) :
  l <> [] ->
  (forall x, In x l -> exists q, x = Some q /\ 0 < q) ->
  exists q, Mongo.avg l = Some q /\ 0 < q.
Proof.
  intros Hne Hpos.
  assert (Hnum : Mongo.numbers l <> []
                 /\ forall q, In q (Mongo.numbers l) -> 0 < q).
  { split.
    - destruct l as [|x r]; [now elim Hne|].
      destruct (Hpos x (or_introl eq_refl)) as (q & -> & _). discriminate.
    - clear Hne. induction l as [|x r IH]; intros q Hq; [destruct Hq|].
      destruct (Hpos x (or_introl eq_refl)) as (qx & -> & Hqx).
      simpl in Hq. destruct Hq as [<-|Hq]; [exact Hqx|].
      apply IH; [|exact Hq]. intros y Hy. apply Hpos. now right. }
  destruct Hnum as [Hnn Hall]. unfold Mongo.avg.
  destruct (Mongo.numbers l) as [|q r] eqn:Hn; [now elim Hnn|].
  eexists. split; [reflexivity|].
  apply Qlt_shift_div_l.
  - unfold Mongo.size. rewrite <- (Zlt_Qlt 0). simpl List.length. lia.
  - rewrite Qmult_0_l. apply sum_pos; [discriminate|exact Hall].
Qed.

(** On a clock that does not go back between the two readings, the overdue
    analysis has no row exactly when no task is overdue at the first
    reading, its counts add up to the number of those tasks, and every
    average overdue age is a positive number of days. *)
Theorem overdueAnalysis_counts_and_ages (tasks : list Task) (c : Clock.t) :
  let first := Clock.reading c (Clock.reads c) in
  let second := Clock.reading c (S (Clock.reads c)) in
  (first <= second)%Z ->
  exists rows,
    fst (overdueAnalysis tasks c) = Ok rows
    /\ (rows = [] <-> filter (overdueMatch first) tasks = [])
    /\ Mongo.sumZ (map Overdue.count rows)
       = Mongo.size (filter (overdueMatch first) tasks)
    /\ forall row, In row rows ->
         exists days, Overdue.avgOverdueDays row = Some days /\ 0 < days.
Proof.
  intros first second Hclock.
  unfold overdueAnalysis, Clock.bind, Clock.newDate, Clock.ret.
  cbn [Clock.reading Clock.reads fst]. fold first second.
  rewrite overduePipeline_ok. eexists. split; [reflexivity|].
  destruct (group_by_grouped _ _ _ String.eqb_spec priority
              (filter (overdueMatch first) tasks))
    as (_ & Hmem & Hcov & Hperm).
  split; [|split].
  - split.
    + intros Hnil. apply map_eq_nil in Hnil.
      destruct (filter (overdueMatch first) tasks) as [|t r] eqn:Hf;
        [reflexivity|].
      specialize (Hcov t (or_introl eq_refl)). rewrite Hnil in Hcov.
      destruct Hcov.
    + intros Hnil. now rewrite Hnil.
  - rewrite map_map. cbn [Overdue.count]. rewrite sumZ_sizes.
    unfold Mongo.size. now rewrite (Permutation_length Hperm).
  - intros row Hin. apply in_map_iff in Hin as ([p g] & <- & Hg).
    cbn [Overdue.avgOverdueDays snd].
    destruct (Hmem _ _ Hg) as [Heq Hne].
    apply avg_pos.
    + intros Hnil. apply map_eq_nil in Hnil. now apply Hne.
    + intros x Hx. apply in_map_iff in Hx as (t & <- & Ht).
      rewrite Heq in Ht. apply filter_In in Ht as [Ht _].
      apply filter_In in Ht as [_ Hlate].
      unfold overdueMatch in Hlate. unfold overdueAge.
      destruct (dueDate t) as [due|]; [|discriminate].
      apply andb_prop in Hlate as [Hlate _]. apply Z.ltb_lt in Hlate.
      eexists. split; [reflexivity|].
      apply Qlt_shift_div_l; [reflexivity|]. rewrite Qmult_0_l.
      rewrite <- (Qplus_opp_r (inject_Z due)). unfold Qminus.
      apply Qplus_lt_l. rewrite <- Zlt_Qlt. lia.
Qed.

Lemma overdueAnalysis_counts_and_ages_witness :
  exists rows,
    fst (overdueAnalysis Sample.late Sample.steady) = Ok rows
    /\ Mongo.sumZ (map Overdue.count rows) = 2%Z.
Proof.
  destruct (overdueAnalysis_counts_and_ages Sample.late Sample.steady)
    as (rows & Hrows & _ & Hsum & _).
  - simpl. lia.
  - exists rows. split; [exact Hrows|exact Hsum].
Defined.

(** The task statistics have one bucket for each status in use; the count
    of a bucket is the number of tasks with its status, never 0, and the
    counts add up to the number of tasks. *)
Theorem taskStats_buckets (tasks : list Task) :
  NoDup (map TaskStat._id (taskStats tasks))
  /\ (forall t, In t tasks -> In (status t) (map TaskStat._id (taskStats tasks)))
  /\ (forall s, In s (taskStats tasks) ->
        (0 < TaskStat.count s)%Z
        /\ TaskStat.count s
           = Mongo.size (filter (fun t => String.eqb (status t) (TaskStat._id s))
                                tasks))
  /\ Mongo.sumZ (map TaskStat.count (taskStats tasks)) = Mongo.size tasks.
Proof.
  destruct (group_by_grouped _ _ _ String.eqb_spec status tasks)
    as (Hnd & Hmem & Hcov & _).
  assert (Hids : map TaskStat._id (taskStats tasks)
                 = map fst (Mongo.group_by String.eqb status tasks)).
  { unfold taskStats. now rewrite map_map. }
  rewrite Hids. repeat split; try assumption.
  - now apply taskStats_count_pos with (tasks := tasks).
  - unfold taskStats in H. apply in_map_iff in H as ([k xs] & <- & Hg).
    cbn [TaskStat.count TaskStat._id fst snd]. rewrite count_size.
    now rewrite (proj1 (Hmem _ _ Hg)) at 1.
  - apply taskStats_total.
Qed.

Lemma taskStats_buckets_witness :
  In "todo"%string (map TaskStat._id (taskStats Sample.board)).
Proof.
  apply (proj1 (proj2 (taskStats_buckets Sample.board))
           (Sample.task "a" "todo" "high")).
  simpl. auto.
Defined.

(** ** More on the reports *)




(** The project-performance report has one row per project, in the order of
    the collection; in every row the completed tasks are at most the total,
    and [onTimeCompletion] is null exactly when the project lacks a
    completion date or a due date, and otherwise tells whether the
    completion date is not after the due date.  Project identifiers being
    distinct, the totals add up to the number of tasks whose project
    reference names a project. *)
Theorem projectPerformance_rows (projects : list ProjectDoc.t) (tasks : list Task) :
  let rows := projectPerformance projects tasks in
  map Performance._id rows
  = map (fun p => Project._id (ProjectDoc.base p)) projects
  /\ (forall row, In row rows ->
        (0 <= Performance.completedTasks row <= Performance.totalTasks row)%Z
        /\ (Performance.onTimeCompletion row = None
            <-> Performance.completedDate row = None
                \/ Performance.dueDate row = None)
        /\ (forall c d, Performance.completedDate row = Some c ->
                        Performance.dueDate row = Some d ->
                        Performance.onTimeCompletion row = Some (c <=? d)%Z))
  /\ (NoDup (map (fun p => Project._id (ProjectDoc.base p)) projects) ->
      Mongo.sumZ (map Performance.totalTasks rows)
      = Mongo.size (filter (fun t => exists_ (project t)
                                     && resolved (map ProjectDoc.base projects) t)
                           tasks)).
Proof.
  cbv zeta. unfold projectPerformance. split; [now rewrite map_map|]. split.
  - intros row Hin. apply in_map_iff in Hin as (p & <- & _).
    cbn [Performance.completedTasks Performance.totalTasks
         Performance.onTimeCompletion Performance.completedDate
         Performance.dueDate].
    split; [split; [apply size_nonneg|apply size_filter_le]|].
    unfold onTimeCompletion.
    destruct (ProjectDoc.completedDate p) as [c|],
             (Project.dueDate (ProjectDoc.base p)) as [d|]; split;
      try (split; [intros H; try discriminate H; auto
                  |intros [H|H]; discriminate H || reflexivity]);
      try (intros c' d' Hc Hd; inversion Hc; inversion Hd; subst; reflexivity);
      try (intros c' d' Hc Hd; discriminate).
  - intros Hnd. rewrite map_map. cbn [Performance.totalTasks].
    rewrite <- (joined_total (map ProjectDoc.base projects) tasks).
    + now rewrite map_map.
    + now rewrite map_map.
Qed.

Lemma projectPerformance_rows_witness :
  Mongo.sumZ (map Performance.totalTasks
                  (projectPerformance Sample.performance Sample.backlog))
  = Mongo.size (filter (fun t => exists_ (project t)
                                 && resolved (map ProjectDoc.base Sample.performance) t)
                       Sample.backlog).
Proof.
  apply (proj2 (proj2 (projectPerformance_rows Sample.performance Sample.backlog))).
  simpl. repeat constructor. simpl. tauto.
Defined.

Lemma findOverdue_isOverdue_witness :
  In (nth 0 Sample.late Sample.done) Sample.late
  /\ TaskModel.isOverdue 1000000000000 (nth 0 Sample.late Sample.done) = true.
Proof.
  apply (proj1 (proj1 (findOverdue_isOverdue 1000000000000 Sample.late)
                      (nth 0 Sample.late Sample.done))).
  vm_compute. auto.
Defined.

